(** * SearchService: the fetch and health routes

    A shallow embedding of [SearchService/app/routes/fetch.py] and
    [SearchService/app/routes/health.py], and the properties of the two
    handlers.

    Modelling conventions.
    - A Python [str] is a [string]: the sequence of its code points, for
      code points below 256 (one [ascii] per code point).
    - The pattern [_HTTP_URL_RE] is a value of a small syntax of regular
      expressions, run by a backtracking matcher ([Re]).
    - A Python [float] is a binary64 value, [spec_float] of the Standard
      Library; only comparisons and conversions are performed on it.
    - A Python [dict] with string keys is a [gmap string _].
    - [requests.get] is an effect: a handler is a program over one
      request event ([prog]), run against an upstream that owns the state
      of the world ([run]); the run records the requests issued.
    - An exception that leaves a handler is an outcome of its own
      ([Propagated]), next to the returned value. *)

From Stdlib Require Import ZArith Ascii String Floats.SpecFloat.
From stdpp Require Import gmap strings list.

Local Open Scope string_scope.

(** ** Characters and strings *)

Module Str.

Definition code (c : ascii) : N := N_of_ascii c.

(** [str.isspace] on one character, also the class [\s] of [re] on
    [str] patterns: U+0009..U+000D, U+001C..U+0020, U+0085, U+00A0. *)
Definition isspace (c : ascii) : bool :=
  let n := code c in
  ((9 <=? n) && (n <=? 13) || (28 <=? n) && (n <=? 32)
   || (n =? 133) || (n =? 160))%N.

(** [str.lower] on one character: A..Z and the capital letters
    U+00C0..U+00DE (U+00D7, the multiplication sign, is not a letter). *)
Definition tolower (c : ascii) : ascii :=
  let n := code c in
  if ((65 <=? n) && (n <=? 90)
      || (192 <=? n) && (n <=? 222) && negb (n =? 215))%N
  then ascii_of_N (n + 32) else c.

Fixpoint lower (s : string) : string :=
  match s with
  | EmptyString => EmptyString
  | String c s' => String (tolower c) (lower s')
  end.

Fixpoint lstrip (s : string) : string :=
  match s with
  | EmptyString => EmptyString
  | String c s' => if isspace c then lstrip s' else s
  end.

Fixpoint rstrip (s : string) : string :=
  match s with
  | EmptyString => EmptyString
  | String c s' =>
      match rstrip s' with
      | EmptyString => if isspace c then EmptyString else String c EmptyString
      | r => String c r
      end
  end.

(** [s.strip()] with no argument. *)
Definition strip (s : string) : string := rstrip (lstrip s).

Fixpoint startswith (p s : string) : bool :=
  match p, s with
  | EmptyString, _ => true
  | String a p', String b s' => if Ascii.eqb a b then startswith p' s' else false
  | String _ _, EmptyString => false
  end.

(** [needle in hay] on two strings. *)
Fixpoint contains (needle hay : string) : bool :=
  startswith needle hay ||
  match hay with
  | EmptyString => false
  | String _ hay' => contains needle hay'
  end.

Fixpoint all (p : ascii -> bool) (s : string) : bool :=
  match s with
  | EmptyString => true
  | String c s' => p c && all p s'
  end.

Fixpoint drop (n : nat) (s : string) : string :=
  match n, s with
  | O, _ => s
  | S n', String _ s' => drop n' s'
  | S _, EmptyString => EmptyString
  end.

(** Truth value of a string: non-empty. *)
Definition nonempty (s : string) : bool :=
  match s with EmptyString => false | _ => true end.

End Str.

(** ** The fragment of [re] used by [_HTTP_URL_RE] *)

Module Re.

Inductive set_item : Type :=
| Chr (c : ascii)          (* a literal member of a class *)
| Space.                   (* \s *)

Inductive atom : Type :=
| Lit (c : ascii)                          (* a literal character *)
| Class (negated : bool) (items : list set_item)   (* [...] and [^...] *)
| Dot.                                     (* . without DOTALL *)

Inductive node : Type :=
| One (a : atom)
| Opt (a : atom)           (* a? *)
| Star (a : atom)          (* a* *)
| Bol                      (* ^ without MULTILINE *)
| Eol.                     (* $ without MULTILINE *)

Definition newline : ascii := ascii_of_N 10.

(** A literal character, alone or as a member of a class: under
    IGNORECASE both sides are lowered before they are compared. *)
Definition lit_matches (ignorecase : bool) (d c : ascii) : bool :=
  if ignorecase then Ascii.eqb (Str.tolower c) (Str.tolower d)
  else Ascii.eqb c d.

Definition item_has (ignorecase : bool) (c : ascii) (i : set_item) : bool :=
  match i with
  | Chr d => lit_matches ignorecase d c
  | Space => Str.isspace c
  end.

(** One character against one atom. *)
Definition atom_matches (ignorecase : bool) (a : atom) (c : ascii) : bool :=
  match a with
  | Lit d => lit_matches ignorecase d c
  | Class negated items =>
      let member := existsb (item_has ignorecase c) items in
      if negated then negb member else member
  | Dot => negb (Ascii.eqb c newline)
  end.

(** [$]: at the end of the string, or just before a final newline. *)
Definition at_end (s : string) : bool :=
  match s with
  | EmptyString => true
  | String c EmptyString => Ascii.eqb c newline
  | _ => false
  end.

(** Backtracking match of the node sequence [p] at position [pos], the
    rest of the subject being [s]; true when some way of matching
    succeeds (greedy or not, the answer is the same). *)
Fixpoint match_here (ignorecase : bool) (p : list node) : nat -> string -> bool :=
  match p with
  | [] => fun _ _ => true
  | n :: p' =>
      let rest := match_here ignorecase p' in
      let step (again : nat -> string -> bool) (a : atom) (pos : nat) (s : string) :=
        match s with
        | String c s' => atom_matches ignorecase a c && again (S pos) s'
        | EmptyString => false
        end in
      match n with
      | One a => step rest a
      | Opt a => fun pos s => step rest a pos s || rest pos s
      | Star a =>
          fix star (pos : nat) (s : string) {struct s} : bool :=
            match s with
            | String c s' => atom_matches ignorecase a c && star (S pos) s'
            | EmptyString => false
            end || rest pos s
      | Bol => fun pos s => Nat.eqb pos 0 && rest pos s
      | Eol => fun pos s => at_end s && rest pos s
      end
  end.

Record pattern : Type := { nodes : list node; IGNORECASE : bool }.

(** [pattern.match(s)] as a truth value: a match anchored at position 0. *)
Definition match_ (p : pattern) (s : string) : bool :=
  match_here (IGNORECASE p) (nodes p) 0 s.

End Re.

(** ** Python values *)

(** Values that the parsed-arguments dict and the response bodies hold. *)
Inductive pyval : Type :=
| PyNone
| PyBool (b : bool)
| PyInt (z : Z)
| PyFloat (f : spec_float)
| PyStr (s : string).

(** ** URL validation ([fetch.py], lines 15-22) *)

(** [re.compile(r"^(https?://)[^\s/$.?#].[^\s]*$", re.IGNORECASE)]; the
    group only captures, it does not change what matches. *)
Definition _HTTP_URL_RE : Re.pattern :=
  {| Re.nodes :=
       [ Re.Bol;
         Re.One (Re.Lit "h"); Re.One (Re.Lit "t"); Re.One (Re.Lit "t");
         Re.One (Re.Lit "p"); Re.Opt (Re.Lit "s");
         Re.One (Re.Lit ":"); Re.One (Re.Lit "/"); Re.One (Re.Lit "/");
         Re.One (Re.Class true
                   [Re.Space; Re.Chr "/"; Re.Chr "$"; Re.Chr "."; Re.Chr "?"; Re.Chr "#"]);
         Re.One Re.Dot;
         Re.Star (Re.Class true [Re.Space]);
         Re.Eol ];
     Re.IGNORECASE := true |}.

Definition _is_valid_http_url (url : pyval) : bool :=
  match url with
  | PyStr s => Re.match_ _HTTP_URL_RE (Str.strip s)
  | _ => false                      (* not isinstance(url, str) *)
  end.

(** ** Floats, truth values, dicts *)

Module Float.

Definition prec : Z := 53.
Definition emax : Z := 1024.

(** The float nearest to an integer (ties to even); an infinity when the
    integer is beyond the binary64 range. *)
Definition of_Z (z : Z) : spec_float := binary_normalize prec emax z 0 false.

Definition zero : spec_float := S754_zero false.
Definition one : spec_float := Eval cbv in of_Z 1.
Definition ten : spec_float := Eval cbv in of_Z 10.
Definition thirty : spec_float := Eval cbv in of_Z 30.

Definition is_nan (f : spec_float) : bool :=
  match f with S754_nan => true | _ => false end.

(** [a < b] and [a > b] on floats; false when either side is a NaN. *)
Definition lt (a b : spec_float) : bool := SFltb a b.
Definition gt (a b : spec_float) : bool := SFltb b a.

(** The builtins [max(a, b)] and [min(a, b)]: the first argument is
    kept unless the second compares strictly greater (smaller). *)
Definition max (a b : spec_float) : spec_float := if gt b a then b else a.
Definition min (a b : spec_float) : spec_float := if lt b a then b else a.

End Float.

Inductive py_error : Type :=
| AttributeError | ValueError | TypeError | OverflowError.

Abbreviation dict := (gmap string pyval).

(** A dict display [{k1: v1, ...}] with distinct keys. *)
Definition mkdict (items : list (string * pyval)) : dict := list_to_map items.

(** [d.get(key, default)]. *)
Definition dict_get (d : dict) (key : string) (default_ : pyval) : pyval :=
  match d !! key with
  | Some v => v
  | None => default_
  end.

(** Truth value of an object, as tested by [if]. *)
Definition truthy (v : pyval) : bool :=
  match v with
  | PyNone => false
  | PyBool b => b
  | PyInt z => negb (z =? 0)%Z
  | PyFloat (S754_zero _) => false
  | PyFloat _ => true
  | PyStr s => Str.nonempty s
  end.

(** [v.strip()]: only a [str] has the method. *)
Definition strip_method (v : pyval) : py_error + string :=
  match v with
  | PyStr s => inr (Str.strip s)
  | _ => inl AttributeError
  end.

(** ** The outbound HTTP client, as a capability *)

(** An exception raised by [requests.get], seen through the two tests the
    handler makes on it and through [str(e)].  Every raised object is an
    instance of [Exception]. *)
Record exception : Type := {
  isinstance_Timeout : bool;
  isinstance_RequestException : bool;
  exc_str : string
}.

(** What the handler reads from a [requests.Response]. *)
Record Response : Type := {
  status_code : Z;
  header_Content_Type : option string;    (* resp.headers.get("Content-Type") *)
  encoding : option string;
  apparent_encoding : option string;
  text : option string -> option string   (* resp.text under an encoding *)
}.

Inductive get_result : Type :=
| Raises (e : exception)
| Returns (resp : Response).

Record Call : Type := {
  call_url : string;
  call_timeout : spec_float;
  call_headers : list (string * string)
}.

(** Programs that may issue GET requests and then return. *)
Inductive prog (A : Type) : Type :=
| Ret (a : A)
| Get (c : Call) (k : get_result -> prog A).

Arguments Ret {A} a.
Arguments Get {A} c k.

(** The upstream answers a call from the state of the world and may
    change that state. *)
Definition Upstream (W : Type) : Type := Call -> W -> get_result * W.

Record Run (W A : Type) : Type := {
  result : A;
  world : W;
  calls : list Call          (* the requests issued, oldest first *)
}.

Arguments result {W A} r.
Arguments world {W A} r.
Arguments calls {W A} r.

Fixpoint run_from {W A : Type} (up : Upstream W) (p : prog A) (w : W)
    (log : list Call) : Run W A :=
  match p with
  | Ret a => {| result := a; world := w; calls := log |}
  | Get c k => let (r, w') := up c w in run_from up (k r) w' (log ++ [c])
  end.

Definition run {W A : Type} (up : Upstream W) (p : prog A) (w : W) : Run W A :=
  run_from up p w [].

(** ** The handlers *)

(** What a view function hands to the framework: a body alone, or a
    [(body, status)] tuple. *)
Inductive view_return : Type :=
| Body (body : dict)
| BodyStatus (body : dict) (status : Z).

(** The HTTP status the framework sends: 200 for a body alone. *)
Definition http_status (v : view_return) : Z :=
  match v with
  | Body _ => 200
  | BodyStatus _ status => status
  end.

Definition body_of (v : view_return) : dict :=
  match v with
  | Body body => body
  | BodyStatus body _ => body
  end.

(** How a call of a view function ends. *)
Inductive outcome : Type :=
| Returned (v : view_return)
| Propagated (e : py_error).

(** [HealthCheck.get] ([health.py], lines 9-10). *)
Definition HealthCheck_get : prog outcome :=
  Ret (Returned (Body (mkdict [("message", PyStr "Healthy")]))).

Definition USER_AGENT : list (string * string) :=
  [("User-Agent", "Visionary-SearchService/1.0")].

(** [x or y] on two strings, and on two strings that may be [None]. *)
Definition str_or (x y : string) : string :=
  if Str.nonempty x then x else y.

Definition or_else (x y : option string) : option string :=
  match x with
  | Some s => if Str.nonempty s then x else y
  | None => y
  end.

(** Line 85: [resp.headers.get("Content-Type", "") or ""]. *)
Definition content_type_of (resp : Response) : string :=
  str_or (default "" (header_Content_Type resp)) "".

(** The test of line 90 on the content type. *)
Definition text_like (content_type : string) : bool :=
  negb (Str.nonempty content_type)
  || (Str.contains "text" (Str.lower content_type)
      || Str.contains "json" (Str.lower content_type)
      || Str.contains "xml" (Str.lower content_type)
      || Str.contains "html" (Str.lower content_type)).

Section Fetch.

(** The builtin [float] on a [str]: [None] stands for [ValueError]. *)
Variable float_of_str : string -> option spec_float.

(** The builtin [float(v)]. *)
Definition float_ (v : pyval) : py_error + spec_float :=
  match v with
  | PyNone => inl TypeError
  | PyBool b => inr (if b then Float.one else Float.zero)
  | PyInt z =>
      match Float.of_Z z with
      | S754_infinity _ => inl OverflowError
      | f => inr f
      end
  | PyFloat f => inr f
  | PyStr s =>
      match float_of_str s with
      | Some f => inr f
      | None => inl ValueError
      end
  end.

(** Lines 67-72: the [try]/[except (ValueError, TypeError)] around
    [float], then the clamp. *)
Definition constrain_timeout (timeout_val : pyval) : py_error + spec_float :=
  match float_ timeout_val with
  | inr f => inr (Float.min (Float.max f Float.one) Float.thirty)
  | inl ValueError | inl TypeError =>
      inr (Float.min (Float.max Float.ten Float.one) Float.thirty)
  | inl e => inl e
  end.

(** Lines 85-116: what is returned once [requests.get] has returned. *)
Definition respond (url : string) (as_text : pyval) (resp : Response) : view_return :=
  let content_type := content_type_of resp in
  if truthy as_text then
    if text_like content_type then
      let text_body :=
        match text resp (or_else (encoding resp) (apparent_encoding resp)) with
        | Some t => t
        | None => ""
        end in
      BodyStatus
        (mkdict [("status", PyStr "success");
                 ("message", PyStr "Content fetched");
                 ("content", PyStr text_body);
                 ("content_type", PyStr content_type);
                 ("url", PyStr url);
                 ("http_status", PyInt (status_code resp))])
        200
    else
      BodyStatus
        (mkdict [("status", PyStr "error");
                 ("message", PyStr "Unsupported content type for text return");
                 ("details", PyStr ("Received content-type '" +:+ content_type
                                    +:+ "', which is not text-like."));
                 ("url", PyStr url)])
        422
  else
    BodyStatus
      (mkdict [("status", PyStr "error");
               ("message", PyStr "Binary content return not supported yet");
               ("details", PyStr "Set as_text=true to receive decoded textual content.");
               ("url", PyStr url)])
      422.

(** Lines 77-83: the three [except] clauses, in order. *)
Definition on_exception (e : exception) : view_return :=
  if isinstance_Timeout e then
    BodyStatus
      (mkdict [("status", PyStr "error");
               ("message", PyStr "Request timed out");
               ("details", PyStr (exc_str e))])
      408
  else if isinstance_RequestException e then
    BodyStatus
      (mkdict [("status", PyStr "error");
               ("message", PyStr "Upstream fetch failed");
               ("details", PyStr (exc_str e))])
      502
  else
    BodyStatus
      (mkdict [("status", PyStr "error");
               ("message", PyStr "Internal server error");
               ("details", PyStr (exc_str e))])
      500.

Definition invalid_url_response : view_return :=
  BodyStatus
    (mkdict [("status", PyStr "error");
             ("message", PyStr "Invalid URL. Only http/https URLs are allowed.");
             ("details", PyStr "Provide a valid HTTP(S) URL in the 'url' field.")])
    400.

(** [FetchContent.post] (lines 58-116). *)
Definition post (args : dict) : prog outcome :=
  match strip_method (dict_get args "url" (PyStr "")) with
  | inl e => Ret (Propagated e)
  | inr url =>
      let timeout_val := dict_get args "timeout" (PyFloat Float.ten) in
      let as_text := dict_get args "as_text" (PyBool true) in
      if negb (_is_valid_http_url (PyStr url)) then
        Ret (Returned invalid_url_response)
      else
        match constrain_timeout timeout_val with
        | inl e => Ret (Propagated e)
        | inr timeout_val =>
            Get {| call_url := url; call_timeout := timeout_val;
                   call_headers := USER_AGENT |}
              (fun r =>
                 match r with
                 | Raises e => Ret (Returned (on_exception e))
                 | Returns resp => Ret (Returned (respond url as_text resp))
                 end)
        end
  end.

End Fetch.

(** ** Vocabulary of the specification *)

(** The outcome categories of the specification, read off a response by
    its status and, for the two 422 outcomes, its message. *)
Inductive category : Type :=
| Success | InvalidRequest | Timeout | UpstreamError
| UnsupportedContentType | BinaryNotSupported | InternalError.

Definition category_of (v : view_return) : option category :=
  let status := http_status v in
  let message := body_of v !! "message" in
  if (status =? 200)%Z then Some Success
  else if (status =? 400)%Z then Some InvalidRequest
  else if (status =? 408)%Z then Some Timeout
  else if (status =? 502)%Z then Some UpstreamError
  else if (status =? 500)%Z then Some InternalError
  else if (status =? 422)%Z then
    match message with
    | Some (PyStr m) =>
        if String.eqb m "Unsupported content type for text return"
        then Some UnsupportedContentType
        else if String.eqb m "Binary content return not supported yet"
        then Some BinaryNotSupported
        else None
    | _ => None
    end
  else None.

Definition outcome_category (o : outcome) : option category :=
  match o with
  | Returned v => category_of v
  | Propagated _ => None
  end.

(** The declared request schema [fetch_args] (lines 25-29). *)
Inductive field_type : Type := String_ | Float_ | Boolean_.

Record field : Type := {
  field_type_of : field_type;
  required : bool;
  missing : option pyval
}.

Definition fetch_args : list (string * field) :=
  [("url",
    {| field_type_of := String_; required := true; missing := None |});
   ("timeout",
    {| field_type_of := Float_; required := false;
       missing := Some (PyFloat Float.ten) |});
   ("as_text",
    {| field_type_of := Boolean_; required := false;
       missing := Some (PyBool true) |})].

Definition has_type (t : field_type) (v : pyval) : bool :=
  match t, v with
  | String_, PyStr _ | Float_, PyFloat _ | Boolean_, PyBool _ => true
  | _, _ => false
  end.

(** The fields present in [args] have their declared types. *)
Definition well_typed (args : dict) : Prop :=
  forall k f v,
    In (k, f) fetch_args -> args !! k = Some v -> has_type (field_type_of f) v = true.

(** The three arguments as [post] reads them (lines 59-61). *)
Definition url_arg (args : dict) : py_error + string :=
  strip_method (dict_get args "url" (PyStr "")).

Definition timeout_arg (args : dict) : pyval :=
  dict_get args "timeout" (PyFloat Float.ten).

Definition as_text_arg (args : dict) : pyval :=
  dict_get args "as_text" (PyBool true).

(** The arguments on which the body of [post] cannot raise by itself: the
    url is a string, and the timeout is not an integer beyond the range
    of a float. *)
Definition admissible (args : dict) : Prop :=
  (exists s, dict_get args "url" (PyStr "") = PyStr s) /\
  (forall z, dict_get args "timeout" (PyFloat Float.ten) = PyInt z ->
             forall sign, Float.of_Z z <> S754_infinity sign).

(** A request with a valid url: [post] gets past the validation with the
    stripped [url] and the constrained timeout [t]. *)
Definition valid_request (float_of_str : string -> option spec_float)
    (args : dict) (url : string) (t : spec_float) : Prop :=
  url_arg args = inr url /\
  _is_valid_http_url (PyStr url) = true /\
  constrain_timeout float_of_str (timeout_arg args) = inr t.

(** The decoded body that a success carries (lines 92-93). *)
Definition decoded_body (resp : Response) : string :=
  default "" (text resp (or_else (encoding resp) (apparent_encoding resp))).

(** The call that [post] issues for a url and a constrained timeout. *)
Definition the_call (url : string) (timeout_val : spec_float) : Call :=
  {| call_url := url; call_timeout := timeout_val; call_headers := USER_AGENT |}.

(** Validation in the words of the specification: after trimming, the
    scheme [http://] or [https://] in any letter case, then a remainder
    that is not empty, holds no whitespace and does not start with one
    of [/ $ . ? #]. *)
Definition special_first (c : ascii) : bool :=
  existsb (Ascii.eqb c) ["/"; "$"; "."; "?"; "#"]%char.

Definition remainder_spec (r : string) : bool :=
  match r with
  | EmptyString => false
  | String c _ =>
      negb (special_first c) && Str.all (fun x => negb (Str.isspace x)) r
  end.

Definition url_spec (raw : string) : bool :=
  let s := Str.strip raw in
  Str.startswith "http://" (Str.lower s) && remainder_spec (Str.drop 7 s)
  || Str.startswith "https://" (Str.lower s) && remainder_spec (Str.drop 8 s).

(** What the pattern asks of the text after the scheme, read off its
    nodes: a first character that is neither whitespace nor one of the
    five, a second character that is not a newline, then no whitespace up
    to the end or to one final newline. *)
Fixpoint tail_code (r : string) : bool :=
  Re.at_end r ||
  match r with
  | String c r' => negb (Str.isspace c) && tail_code r'
  | EmptyString => false
  end.

Definition remainder_code (r : string) : bool :=
  match r with
  | String c1 (String c2 rest) =>
      negb (Str.isspace c1) && negb (special_first c1)
      && negb (Ascii.eqb c2 Re.newline) && tail_code rest
  | _ => false
  end.

Definition code_accepts (s : string) : bool :=
  Str.startswith "http://" (Str.lower s) && remainder_code (Str.drop 7 s)
  || Str.startswith "https://" (Str.lower s) && remainder_code (Str.drop 8 s).

(** The nodes of [_HTTP_URL_RE] after the scheme. *)
Definition rest_nodes : list Re.node :=
  [ Re.One (Re.Class true
              [Re.Space; Re.Chr "/"; Re.Chr "$"; Re.Chr "."; Re.Chr "?"; Re.Chr "#"]);
    Re.One Re.Dot; Re.Star (Re.Class true [Re.Space]); Re.Eol ].

(** A scheme of the specification: [http://] or [https://] in any case. *)
Definition is_scheme (p : string) : Prop :=
  Str.lower p = "http://" \/ Str.lower p = "https://".

(** No whitespace at the end of the string. *)
Fixpoint ends_clean (s : string) : bool :=
  match s with
  | EmptyString => true
  | String c EmptyString => negb (Str.isspace c)
  | String _ s' => ends_clean s'
  end.

(** The mathematical maximum and minimum of two floats, from [<=], and
    the clamp into [1, 30] of the specification: [min(max(t, 1), 30)]. *)
Definition math_max (a b : spec_float) : spec_float := if SFleb a b then b else a.
Definition math_min (a b : spec_float) : spec_float := if SFleb a b then a else b.

Definition clamp_spec (t : spec_float) : spec_float :=
  math_min (math_max t Float.one) Float.thirty.

(** [w] occurs in [s] when letter case is ignored. *)
Definition contains_ci (w s : string) : Prop :=
  exists pre mid post, s = pre +:+ mid +:+ post /\ Str.lower mid = Str.lower w.

(** Text-like content, in the words of the specification: the
    Content-Type header is absent or empty, or contains one of the four
    substrings, case-insensitively. *)
Definition text_like_spec (header : option string) : Prop :=
  header = None \/ header = Some "" \/
  exists s w, header = Some s /\ In w ["text"; "json"; "xml"; "html"] /\ contains_ci w s.

(** A string of whitespace only (the empty string included). *)
Definition blank (s : string) : bool := Str.all Str.isspace s.

(** The names of the declared fields. *)
Definition field_names : list string := map fst fetch_args.

(** The keys of the body that goes with a status: the six keys of a
    success, the four of a 422, the three of the other errors. *)
Definition body_keys (status : Z) : gset string :=
  if (status =? 200)%Z then
    {[ "status"; "message"; "content"; "content_type"; "url"; "http_status" ]}
  else if (status =? 422)%Z then {[ "status"; "message"; "details"; "url" ]}
  else {[ "status"; "message"; "details" ]}.

(** ** Sample requests and upstreams *)

Module Sample.

(** A [float] on strings that rejects every string. *)
Definition no_float (s : string) : option spec_float := None.

Definition example_args : dict := mkdict [("url", PyStr "https://example.com")].

Definition binary_args : dict :=
  mkdict [("url", PyStr "https://example.com"); ("as_text", PyBool false)].

Definition not_a_url_args : dict := mkdict [("url", PyStr "not-a-url")].

Definition html_response (status : Z) : Response :=
  {| status_code := status;
     header_Content_Type := Some "text/html; charset=UTF-8";
     encoding := Some "UTF-8";
     apparent_encoding := Some "ascii";
     text := fun _ => Some "<html>ok</html>" |}.

Definition png_response : Response :=
  {| status_code := 200;
     header_Content_Type := Some "image/png";
     encoding := None;
     apparent_encoding := None;
     text := fun _ => Some "" |}.

Definition read_timeout : exception :=
  {| isinstance_Timeout := true;
     isinstance_RequestException := true;
     exc_str := "Read timed out." |}.

(** Upstreams without state: one that always answers [resp], one that
    always fails with [e]. *)
Definition answering (resp : Response) : Upstream unit :=
  fun _ w => (Returns resp, w).

Definition failing (e : exception) : Upstream unit :=
  fun _ w => (Raises e, w).

Definition nan_timeout_args : dict :=
  mkdict [("url", PyStr "https://example.com"); ("timeout", PyFloat S754_nan)].

End Sample.

(** ** Facts about the handlers *)

Module StrFacts.

Lemma app_nil_l (s : string) : "" +:+ s = s.
Proof. reflexivity. Qed.

Lemma app_cons (c : ascii) (a b : string) : String c a +:+ b = String c (a +:+ b).
Proof. reflexivity. Qed.

Ltac norm_app := rewrite ?app_cons, ?app_nil_l in *.

Lemma app_nil_r (s : string) : s +:+ "" = s.
Proof. induction s as [| c s IH]; norm_app; [reflexivity | now rewrite IH]. Qed.

Lemma app_assoc (a b c : string) : (a +:+ b) +:+ c = a +:+ (b +:+ c).
Proof. induction a as [| x a IH]; norm_app; [reflexivity | now rewrite IH]. Qed.

Lemma startswith_iff (p s : string) :
  Str.startswith p s = true <-> exists t, s = p +:+ t.
Proof.
  revert s. induction p as [| a p IH]; intros s; simpl.
  - split; [intros _; now exists s | reflexivity].
  - destruct s as [| b s].
    + split; [discriminate | intros [t Ht]; discriminate].
    + destruct (Ascii.eqb_spec a b) as [-> | Hne].
      * rewrite IH. split; intros [t Ht]; exists t; norm_app; congruence.
      * split; [discriminate | intros [t Ht]; norm_app; congruence].
Qed.

Lemma contains_iff (w s : string) :
  Str.contains w s = true <-> exists pre post, s = pre +:+ w +:+ post.
Proof.
  induction s as [| c s IH]; simpl.
  - rewrite orb_false_r, startswith_iff. split.
    + intros [t Ht]. now exists "", t.
    + intros [[| x pre] [post H]]; norm_app; [now exists post | discriminate].
  - rewrite orb_true_iff, startswith_iff, IH. split.
    + intros [[t Ht] | [pre [post H]]].
      * now exists "", t.
      * exists (String c pre), post. norm_app. now rewrite H.
    + intros [[| x pre] [post H]]; norm_app.
      * left. now exists post.
      * right. exists pre, post. congruence.
Qed.

Lemma lower_app (a b : string) : Str.lower (a +:+ b) = Str.lower a +:+ Str.lower b.
Proof. induction a as [| c a IH]; norm_app; simpl; norm_app; [reflexivity | now rewrite IH]. Qed.

(** A split of the lowered string comes from a split of the string. *)
Lemma lower_split (s a b : string) :
  Str.lower s = a +:+ b ->
  exists a' b', s = a' +:+ b' /\ Str.lower a' = a /\ Str.lower b' = b.
Proof.
  revert s. induction a as [| x a IH]; intros s H; norm_app.
  - now exists "", s.
  - destruct s as [| c s]; [discriminate |]. simpl in H.
    injection H as Hx Hs. destruct (IH _ Hs) as (a' & b' & -> & Ha & Hb).
    exists (String c a'), b'. norm_app. simpl. now rewrite Ha, Hx.
Qed.

(** Searching the lowered string for a lower-case word is searching the
    string with case ignored. *)
Lemma contains_lower_iff (w s : string) :
  Str.lower w = w ->
  Str.contains w (Str.lower s) = true <-> contains_ci w s.
Proof.
  intros Hw. rewrite contains_iff. unfold contains_ci. split.
  - intros (pre & post & H).
    destruct (lower_split _ _ _ H) as (pre' & r & -> & _ & Hr).
    destruct (lower_split _ _ _ Hr) as (mid & post' & -> & Hm & _).
    exists pre', mid, post'. now rewrite Hw.
  - intros (pre & mid & post & -> & Hm).
    exists (Str.lower pre), (Str.lower post).
    now rewrite !lower_app, Hm, Hw.
Qed.

End StrFacts.

Lemma str_or_empty (s : string) : str_or s "" = s.
Proof. destruct s; reflexivity. Qed.

(** The handler's test for text-like content is the specification's. *)
Lemma text_like_iff (resp : Response) :
  text_like (content_type_of resp) = true <-> text_like_spec (header_Content_Type resp).
Proof.
  unfold text_like_spec, content_type_of. rewrite str_or_empty.
  destruct (header_Content_Type resp) as [s |]; unfold default.
  - unfold text_like.
    rewrite !orb_true_iff, !StrFacts.contains_lower_iff, negb_true_iff by reflexivity.
    split.
    + intros [Hn | H].
      * right; left. destruct s; [reflexivity | discriminate].
      * right; right. exists s.
        destruct H as [[[H | H] | H] | H];
          [exists "text" | exists "json" | exists "xml" | exists "html"];
          simpl; intuition.
    + intros [H | [H | (s' & w & Hs & Hin & Hc)]];
        [discriminate | injection H as ->; now left |].
      injection Hs as <-. right. simpl in Hin.
      destruct Hin as [<- | [<- | [<- | [<- | []]]]]; intuition.
  - split; [now left | reflexivity].
Qed.

(** ** The validation, the pattern and the specification's conditions *)

Module UrlFacts.

Local Arguments Re.match_here : simpl never.
Local Arguments Ascii.eqb : simpl never.
Local Arguments Str.tolower : simpl never.
Local Arguments Str.isspace : simpl never.

(** The equations of the matcher, one per kind of node. *)

Lemma here_nil (ic : bool) (pos : nat) (s : string) :
  Re.match_here ic [] pos s = true.
Proof. reflexivity. Qed.

Lemma here_One (ic : bool) (a : Re.atom) (p : list Re.node) (pos : nat) (s : string) :
  Re.match_here ic (Re.One a :: p) pos s =
  match s with
  | String c s' => Re.atom_matches ic a c && Re.match_here ic p (S pos) s'
  | EmptyString => false
  end.
Proof. reflexivity. Qed.

Lemma here_Opt (ic : bool) (a : Re.atom) (p : list Re.node) (pos : nat) (s : string) :
  Re.match_here ic (Re.Opt a :: p) pos s =
  match s with
  | String c s' => Re.atom_matches ic a c && Re.match_here ic p (S pos) s'
  | EmptyString => false
  end || Re.match_here ic p pos s.
Proof. reflexivity. Qed.

Lemma here_Star (ic : bool) (a : Re.atom) (p : list Re.node) (pos : nat) (s : string) :
  Re.match_here ic (Re.Star a :: p) pos s =
  match s with
  | String c s' => Re.atom_matches ic a c && Re.match_here ic (Re.Star a :: p) (S pos) s'
  | EmptyString => false
  end || Re.match_here ic p pos s.
Proof. destruct s; reflexivity. Qed.

Lemma here_Bol (ic : bool) (p : list Re.node) (pos : nat) (s : string) :
  Re.match_here ic (Re.Bol :: p) pos s = Nat.eqb pos 0 && Re.match_here ic p pos s.
Proof. reflexivity. Qed.

Lemma here_Eol (ic : bool) (p : list Re.node) (pos : nat) (s : string) :
  Re.match_here ic (Re.Eol :: p) pos s = Re.at_end s && Re.match_here ic p pos s.
Proof. reflexivity. Qed.

(** [[^\s]*$] *)
Lemma tail_ok (pos : nat) (r : string) :
  Re.match_here true [Re.Star (Re.Class true [Re.Space]); Re.Eol] pos r = tail_code r.
Proof.
  revert pos. induction r as [| c r IH]; intros pos; rewrite here_Star, here_Eol, here_nil.
  - reflexivity.
  - rewrite IH. simpl. rewrite !orb_false_r, !andb_true_r. apply orb_comm.
Qed.

(** Ignoring case changes nothing for the five punctuation characters. *)
Lemma tolower_special (c d : ascii) :
  In d ["/"; "$"; "."; "?"; "#"]%char ->
  Ascii.eqb (Str.tolower c) (Str.tolower d) = Ascii.eqb c d.
Proof.
  intros H. simpl in H.
  destruct H as [<- | [<- | [<- | [<- | [<- | []]]]]];
    destruct c as [[] [] [] [] [] [] [] []]; reflexivity.
Qed.

Lemma lit_ci (d c : ascii) :
  Str.tolower d = d -> Re.atom_matches true (Re.Lit d) c = Ascii.eqb d (Str.tolower c).
Proof. intros H. simpl. unfold Re.lit_matches. rewrite H. apply Ascii.eqb_sym. Qed.

(** [[^\s/$.?#]] *)
Lemma first_class (c : ascii) :
  Re.atom_matches true
    (Re.Class true [Re.Space; Re.Chr "/"; Re.Chr "$"; Re.Chr "."; Re.Chr "?"; Re.Chr "#"]) c
  = negb (Str.isspace c) && negb (special_first c).
Proof.
  unfold Re.atom_matches, special_first. cbn [existsb Re.item_has].
  unfold Re.lit_matches. rewrite !tolower_special by (simpl; tauto).
  now rewrite negb_orb.
Qed.

Lemma rest_ok (pos : nat) (r : string) :
  Re.match_here true rest_nodes pos r = remainder_code r.
Proof.
  unfold rest_nodes. rewrite here_One. destruct r as [| c1 r]; [reflexivity |].
  rewrite here_One. destruct r as [| c2 r]; [now rewrite andb_false_r |].
  rewrite tail_ok, first_class. cbn [remainder_code Re.atom_matches].
  now rewrite !andb_assoc.
Qed.

Ltac case_chars :=
  rewrite ?lit_ci by reflexivity; simpl;
  repeat match goal with
         | |- context [Ascii.eqb ?a ?b] => destruct (Ascii.eqb a b)
         end;
  rewrite ?andb_false_r; try reflexivity.

Lemma colon_slashes_ok (pos : nat) (s : string) :
  Re.match_here true
    (Re.One (Re.Lit ":") :: Re.One (Re.Lit "/") :: Re.One (Re.Lit "/") :: rest_nodes) pos s
  = Str.startswith "://" (Str.lower s) && remainder_code (Str.drop 3 s).
Proof.
  rewrite here_One. destruct s as [| c1 s]; [reflexivity |].
  rewrite here_One. destruct s as [| c2 s]; [case_chars |].
  rewrite here_One. destruct s as [| c3 s]; [case_chars |].
  rewrite rest_ok. case_chars.
Qed.

(** The pattern accepts exactly what [code_accepts] describes. *)
Lemma match_url (s : string) : Re.match_ _HTTP_URL_RE s = code_accepts s.
Proof.
  unfold Re.match_, _HTTP_URL_RE, code_accepts. cbn [Re.nodes Re.IGNORECASE].
  fold rest_nodes. rewrite here_Bol. cbn [Nat.eqb andb].
  rewrite here_One. destruct s as [| c1 s]; [reflexivity |].
  rewrite here_One. destruct s as [| c2 s]; [case_chars |].
  rewrite here_One. destruct s as [| c3 s]; [case_chars |].
  rewrite here_One. destruct s as [| c4 s]; [case_chars |].
  rewrite here_Opt, (colon_slashes_ok 4).
  destruct s as [| c5 s]; [case_chars |].
  rewrite colon_slashes_ok. case_chars.
  all: rewrite ?orb_false_r; try reflexivity; apply orb_comm.
Qed.

(** [strip] is idempotent and leaves no whitespace at the end. *)

Lemma rstrip_cons (c : ascii) (s : string) :
  Str.rstrip (String c s) =
  match Str.rstrip s with
  | EmptyString => if Str.isspace c then EmptyString else String c EmptyString
  | r => String c r
  end.
Proof. reflexivity. Qed.

Lemma rstrip_keeps_head (c : ascii) (s : string) :
  Str.isspace c = false -> Str.rstrip (String c s) = String c (Str.rstrip s).
Proof. intros H. rewrite rstrip_cons, H. now destruct (Str.rstrip s). Qed.

Lemma rstrip_idem (s : string) : Str.rstrip (Str.rstrip s) = Str.rstrip s.
Proof.
  induction s as [| c s IH]; [reflexivity |].
  rewrite rstrip_cons. destruct (Str.rstrip s) as [| d r] eqn:E.
  - destruct (Str.isspace c) eqn:Hc; [reflexivity |].
    rewrite rstrip_cons. simpl. now rewrite Hc.
  - rewrite rstrip_cons, IH. reflexivity.
Qed.

Lemma lstrip_head (s : string) :
  match Str.lstrip s with
  | EmptyString => True
  | String c _ => Str.isspace c = false
  end.
Proof.
  induction s as [| c s IH]; simpl; [exact I |].
  destruct (Str.isspace c) eqn:Hc; [exact IH | exact Hc].
Qed.

Lemma lstrip_fixed (c : ascii) (s : string) :
  Str.isspace c = false -> Str.lstrip (String c s) = String c s.
Proof. intros H. simpl. now rewrite H. Qed.

Lemma strip_idem (s : string) : Str.strip (Str.strip s) = Str.strip s.
Proof.
  unfold Str.strip. pose proof (lstrip_head s) as H.
  destruct (Str.lstrip s) as [| c t]; [reflexivity |].
  rewrite (rstrip_keeps_head _ _ H), (lstrip_fixed _ _ H).
  rewrite <- (rstrip_keeps_head _ _ H). apply rstrip_idem.
Qed.

Lemma rstrip_ends_clean (s : string) : ends_clean (Str.rstrip s) = true.
Proof.
  induction s as [| c s IH]; [reflexivity |].
  rewrite rstrip_cons. destruct (Str.rstrip s) as [| d r].
  - destruct (Str.isspace c) eqn:Hc; simpl; [reflexivity | now rewrite Hc].
  - exact IH.
Qed.

Lemma ends_clean_tail (c : ascii) (s : string) :
  ends_clean (String c s) = true -> ends_clean s = true.
Proof. destruct s; [reflexivity | intros H; exact H]. Qed.

Lemma ends_clean_app (a b : string) :
  ends_clean (a +:+ b) = true -> ends_clean b = true.
Proof.
  induction a as [| c a IH]; [intros H; exact H |].
  change (String c a +:+ b) with (String c (a +:+ b)).
  intros H. apply IH, (ends_clean_tail _ _ H).
Qed.

Lemma tail_code_clean (r : string) :
  ends_clean r = true -> tail_code r = Str.all (fun x => negb (Str.isspace x)) r.
Proof.
  induction r as [| c r IH]; [reflexivity |].
  intros H. simpl tail_code. simpl Str.all. rewrite (IH (ends_clean_tail _ _ H)).
  destruct r as [| d r]; [| reflexivity].
  simpl in *. rewrite H. now destruct (Ascii.eqb c Re.newline).
Qed.

(** The validation, in full. *)
Lemma validation_is_code_accepts (raw : string) :
  _is_valid_http_url (PyStr raw) = code_accepts (Str.strip raw).
Proof. apply match_url. Qed.

(** [post] validates the stripped url; that is validating the url. *)
Lemma valid_strip (raw : string) :
  _is_valid_http_url (PyStr (Str.strip raw)) = _is_valid_http_url (PyStr raw).
Proof. simpl. now rewrite strip_idem. Qed.

Lemma isspace_newline (c : ascii) :
  Str.isspace c = false -> Ascii.eqb c Re.newline = false.
Proof.
  intros H. destruct (Ascii.eqb_spec c Re.newline) as [-> | _]; [discriminate H | reflexivity].
Qed.

Lemma remainder_agree (c1 c2 : ascii) (rest : string) :
  ends_clean rest = true -> Str.isspace c2 = false ->
  remainder_code (String c1 (String c2 rest)) = remainder_spec (String c1 (String c2 rest)).
Proof.
  intros Hc H2. unfold remainder_code, remainder_spec. simpl Str.all.
  rewrite (tail_code_clean _ Hc), (isspace_newline _ H2), H2.
  destruct (Str.isspace c1), (special_first c1); reflexivity.
Qed.


(** A scheme in front of [r]: which of the two prefixes the lowered
    string has, and what is left after it. *)
Lemma scheme_split (p r : string) :
  is_scheme p ->
  (Str.startswith "http://" (Str.lower (p +:+ r)) = true /\
   Str.drop 7 (p +:+ r) = r /\
   Str.startswith "https://" (Str.lower (p +:+ r)) = false) \/
  (Str.startswith "https://" (Str.lower (p +:+ r)) = true /\
   Str.drop 8 (p +:+ r) = r /\
   Str.startswith "http://" (Str.lower (p +:+ r)) = false).
Proof.
  intros [H | H]; [left | right];
    do 9 (try destruct p as [| ? p]); simpl in H; try discriminate H;
    injection H; intros;
    rewrite StrFacts.lower_app; simpl Str.lower;
    repeat match goal with E : Str.tolower _ = _ |- _ => rewrite E; clear E end;
    StrFacts.norm_app; simpl; rewrite ?Ascii.eqb_refl; repeat split.
Qed.

(** When at least two characters follow the scheme and the second one is
    not whitespace, the validation and the three conditions agree. *)
Lemma validation_agrees (raw p : string) (c1 c2 : ascii) (rest : string) :
  Str.strip raw = p +:+ String c1 (String c2 rest) ->
  is_scheme p ->
  Str.isspace c2 = false ->
  _is_valid_http_url (PyStr raw) = url_spec raw.
Proof.
  intros Hs Hp H2. rewrite validation_is_code_accepts.
  unfold code_accepts, url_spec. cbv zeta. rewrite Hs.
  assert (ends_clean rest = true) as Hc.
  { pose proof (rstrip_ends_clean (Str.lstrip raw)) as H. fold (Str.strip raw) in H.
    rewrite Hs in H. apply ends_clean_app in H.
    now apply ends_clean_tail, ends_clean_tail in H. }
  destruct (scheme_split p (String c1 (String c2 rest)) Hp)
    as [(-> & -> & ->) | (-> & -> & ->)];
    now rewrite remainder_agree.
Qed.

(** One character after the scheme is never enough for the pattern. *)
Lemma single_character_rejected (raw p : string) (c1 : ascii) :
  Str.strip raw = p +:+ String c1 "" ->
  is_scheme p ->
  _is_valid_http_url (PyStr raw) = false.
Proof.
  intros Hs Hp. rewrite validation_is_code_accepts. unfold code_accepts. rewrite Hs.
  destruct (scheme_split p (String c1 "") Hp) as [(-> & -> & ->) | (-> & -> & ->)];
    reflexivity.
Qed.

(** A url without either scheme fails the validation. *)
Lemma no_scheme_invalid (raw : string) :
  Str.startswith "http://" (Str.lower (Str.strip raw)) = false ->
  Str.startswith "https://" (Str.lower (Str.strip raw)) = false ->
  _is_valid_http_url (PyStr raw) = false.
Proof.
  intros H1 H2. rewrite validation_is_code_accepts. unfold code_accepts.
  now rewrite H1, H2.
Qed.

(** A url that is a scheme and nothing more fails the validation. *)
Lemma empty_remainder_invalid (raw : string) :
  is_scheme (Str.strip raw) ->
  _is_valid_http_url (PyStr raw) = false.
Proof.
  intros Hp. rewrite validation_is_code_accepts. unfold code_accepts.
  rewrite <- (StrFacts.app_nil_r (Str.strip raw)).
  destruct (scheme_split (Str.strip raw) "" Hp) as [(-> & -> & ->) | (-> & -> & ->)];
    reflexivity.
Qed.

Lemma rstrip_clean (s : string) : ends_clean s = true -> Str.rstrip s = s.
Proof.
  induction s as [| c s IH]; [reflexivity |].
  intros H. rewrite rstrip_cons. destruct s as [| d s].
  - simpl in *. now destruct (Str.isspace c).
  - now rewrite (IH H).
Qed.

Lemma ends_clean_app_r (p r : string) :
  r <> "" -> ends_clean (p +:+ r) = ends_clean r.
Proof.
  intros Hr. induction p as [| c p IH]; [reflexivity |].
  StrFacts.norm_app. rewrite <- IH.
  destruct (p +:+ r) as [| d q] eqn:E; [| reflexivity].
  destruct p; StrFacts.norm_app; [contradiction | discriminate E].
Qed.

Lemma all_nonspace_ends_clean (r : string) :
  Str.all (fun x => negb (Str.isspace x)) r = true -> ends_clean r = true.
Proof.
  induction r as [| c r IH]; [reflexivity |].
  simpl. intros H. apply andb_prop in H as [Hc Hr].
  destruct r; [exact Hc | exact (IH Hr)].
Qed.

Lemma all_nonspace_tail_code (r : string) :
  Str.all (fun x => negb (Str.isspace x)) r = true -> tail_code r = true.
Proof.
  intros H. now rewrite (tail_code_clean _ (all_nonspace_ends_clean _ H)).
Qed.

Lemma scheme_head (p : string) :
  is_scheme p -> exists a q, p = String a q /\ Str.isspace a = false.
Proof.
  intros [H | H]; (destruct p as [| a q]; [discriminate H |]);
    exists a, q; (split; [reflexivity |]);
    simpl in H; injection H as Ha _;
    destruct a as [[] [] [] [] [] [] [] []]; try reflexivity; discriminate Ha.
Qed.

(** A string that starts with a scheme and does not end in whitespace is
    left as it is by [strip]. *)
Lemma strip_scheme (p r : string) :
  is_scheme p -> r <> "" -> ends_clean r = true -> Str.strip (p +:+ r) = p +:+ r.
Proof.
  intros Hp Hr Hc. destruct (scheme_head p Hp) as (a & q & -> & Ha).
  unfold Str.strip. StrFacts.norm_app. rewrite (lstrip_fixed _ _ Ha).
  apply rstrip_clean. change (String a (q +:+ r)) with (String a q +:+ r).
  now rewrite ends_clean_app_r.
Qed.

(** The first way the validation leaves the three conditions: a single
    character after the scheme meets them and is rejected. *)
Lemma single_character_diverges (p : string) (c : ascii) :
  is_scheme p -> Str.isspace c = false -> special_first c = false ->
  url_spec (p +:+ String c "") = true /\
  _is_valid_http_url (PyStr (p +:+ String c "")) = false.
Proof.
  intros Hp Hc Hs.
  assert (Str.strip (p +:+ String c "") = p +:+ String c "") as Hstrip.
  { apply strip_scheme; [exact Hp | discriminate | simpl; now rewrite Hc]. }
  split.
  - unfold url_spec. cbv zeta. rewrite Hstrip.
    destruct (scheme_split p (String c "") Hp) as [(-> & -> & ->) | (-> & -> & ->)];
      simpl; now rewrite Hs, Hc.
  - now apply (single_character_rejected _ p c).
Qed.

(** The second way: whitespace other than a newline in second place after
    the scheme breaks them and is accepted. *)
Lemma space_in_second_place_diverges (p : string) (c1 c2 : ascii) (rest : string) :
  is_scheme p ->
  Str.isspace c1 = false -> special_first c1 = false ->
  Str.isspace c2 = true -> c2 <> Re.newline ->
  rest <> "" -> Str.all (fun x => negb (Str.isspace x)) rest = true ->
  url_spec (p +:+ String c1 (String c2 rest)) = false /\
  _is_valid_http_url (PyStr (p +:+ String c1 (String c2 rest))) = true.
Proof.
  intros Hp H1 Hs H2 Hnl Hr Hall.
  assert (Str.strip (p +:+ String c1 (String c2 rest)) = p +:+ String c1 (String c2 rest))
    as Hstrip.
  { apply strip_scheme; [exact Hp | discriminate |].
    destruct rest as [| d rest']; [contradiction |].
    exact (all_nonspace_ends_clean _ Hall). }
  apply Ascii.eqb_neq in Hnl.
  split.
  - unfold url_spec. cbv zeta. rewrite Hstrip.
    destruct (scheme_split p (String c1 (String c2 rest)) Hp)
      as [(-> & -> & ->) | (-> & -> & ->)];
      simpl; rewrite H2, ?andb_false_r; reflexivity.
  - rewrite validation_is_code_accepts. unfold code_accepts. rewrite Hstrip.
    destruct (scheme_split p (String c1 (String c2 rest)) Hp)
      as [(-> & -> & ->) | (-> & -> & ->)];
      simpl; now rewrite H1, Hs, Hnl, (all_nonspace_tail_code _ Hall).
Qed.

End UrlFacts.

(** C1: the validation is not the specification's: ["http://a"] meets
    the three conditions and is rejected, because the pattern asks for two
    characters after the scheme; ["http://a b"] holds a space and is
    accepted, because the pattern's second character may be any
    character but a newline. *)
Theorem C1_validation_differs_from_the_three_conditions :
  url_spec "http://a" = true /\
  _is_valid_http_url (PyStr "http://a") = false /\
  url_spec "http://a b" = false /\
  _is_valid_http_url (PyStr "http://a b") = true.
Proof. repeat split. Qed.

Module FloatFacts.

Lemma compare_cont_antisym (m1 m2 : positive) :
  Pos.compare_cont Eq m1 m2 = CompOpp (Pos.compare_cont Eq m2 m1).
Proof. apply Pos.compare_antisym. Qed.

(** Swapping the arguments of a comparison reverses its answer. *)
Lemma SFcompare_antisym (a b : spec_float) :
  SFcompare a b = option_map CompOpp (SFcompare b a).
Proof.
  destruct a as [sa | sa | | sa ma ea], b as [sb | sb | | sb mb eb]; simpl;
    try reflexivity; try (destruct sa; reflexivity); try (destruct sb; reflexivity);
    try (destruct sa, sb; reflexivity).
  rewrite (Z.compare_antisym eb ea), (compare_cont_antisym ma mb).
  destruct sa, sb; try reflexivity;
    destruct (eb ?= ea)%Z; simpl; try reflexivity;
    destruct (Pos.compare_cont Eq mb ma); reflexivity.
Qed.

Lemma SFcompare_not_nan (a b : spec_float) :
  Float.is_nan a = false -> Float.is_nan b = false ->
  exists c, SFcompare a b = Some c.
Proof.
  destruct a, b; simpl; try discriminate; eauto.
Qed.

(** Two floats that compare equal to a finite one are the same float. *)
Lemma SFcompare_Eq_finite (t : spec_float) (s : bool) (m : positive) (e : Z) :
  SFcompare t (S754_finite s m e) = Some Eq -> t = S754_finite s m e.
Proof.
  destruct t as [st | st | | st mt et]; simpl;
    try discriminate; try (destruct st; discriminate); try (destruct s; discriminate).
  destruct st, s; try discriminate;
    destruct (Z.compare_spec et e) as [-> | |]; try discriminate;
    destruct (Pos.compare_cont Eq mt m) eqn:Hm; try discriminate;
    apply Pos.compare_eq in Hm; now subst.
Qed.

Lemma max_not_nan (t : spec_float) :
  Float.is_nan t = false -> Float.is_nan (Float.max t Float.one) = false.
Proof.
  intros H. unfold Float.max. now destruct (Float.gt Float.one t).
Qed.

(** Away from NaN the builtins compute the mathematical clamp. *)
Lemma clamp_is_clamp_spec (t : spec_float) :
  Float.is_nan t = false ->
  Float.min (Float.max t Float.one) Float.thirty = clamp_spec t.
Proof.
  intros Hnan. unfold clamp_spec.
  assert (Float.max t Float.one = math_max t Float.one) as Hmax.
  { unfold Float.max, Float.gt, math_max, SFltb, SFleb.
    destruct (SFcompare_not_nan t Float.one Hnan eq_refl) as [c Hc]. rewrite Hc.
    destruct c; try reflexivity. apply (SFcompare_Eq_finite _ _ _ _ Hc). }
  rewrite <- Hmax. pose proof (max_not_nan t Hnan) as Hm.
  set (m := Float.max t Float.one) in *.
  unfold Float.min, Float.lt, math_min, SFltb, SFleb.
  rewrite (SFcompare_antisym Float.thirty m).
  destruct (SFcompare_not_nan m Float.thirty Hm eq_refl) as [c Hc]. rewrite Hc.
  now destruct c.
Qed.

Lemma SFleb_of_compare (a b : spec_float) (c : comparison) :
  SFcompare a b = Some c -> c <> Gt -> SFleb a b = true.
Proof. intros H Hc. unfold SFleb. rewrite H. now destruct c. Qed.

(** The clamped value lies between 1 and 30, unless it is a NaN. *)
Lemma clamp_in_range (f : spec_float) :
  let t := Float.min (Float.max f Float.one) Float.thirty in
  Float.is_nan t = false ->
  SFleb Float.one t = true /\ SFleb t Float.thirty = true.
Proof.
  intros t. subst t. unfold Float.min, Float.max, Float.gt, Float.lt, SFltb.
  destruct (Float.is_nan f) eqn:Hnan; [now destruct f |].
  destruct (SFcompare_not_nan f Float.one Hnan eq_refl) as [c1 H1].
  rewrite H1. destruct c1; try (intros _; split; reflexivity);
    destruct (SFcompare_not_nan f Float.thirty Hnan eq_refl) as [c2 H2];
    rewrite (SFcompare_antisym Float.thirty f), H2;
    pose proof (SFcompare_antisym Float.one f) as H1'; rewrite H1 in H1';
    destruct c2; simpl; intros _;
    (split; [first [reflexivity | now apply (SFleb_of_compare _ _ _ H1')]
            | first [reflexivity | now apply (SFleb_of_compare _ _ _ H2)]]).
Qed.

End FloatFacts.

Section FetchFacts.

Variable float_of_str : string -> option spec_float.
Context {W : Type}.
Variable up : Upstream W.

(** On a valid url the handler issues exactly the one call and returns
    what the [except] clauses or the classification return. *)
Lemma post_valid (args : dict) (url : string) (t : spec_float) :
  valid_request float_of_str args url t ->
  post float_of_str args =
    Get (the_call url t)
      (fun r =>
         match r with
         | Raises e => Ret (Returned (on_exception e))
         | Returns resp => Ret (Returned (respond url (as_text_arg args) resp))
         end).
Proof.
  intros (Hu & Hv & Ht). unfold post.
  fold (url_arg args) (timeout_arg args). rewrite Hu, Hv, Ht. reflexivity.
Qed.

Lemma run_post_valid (args : dict) (url : string) (t : spec_float) (w : W) :
  valid_request float_of_str args url t ->
  run up (post float_of_str args) w =
    {| result :=
         Returned
           match fst (up (the_call url t) w) with
           | Raises e => on_exception e
           | Returns resp => respond url (as_text_arg args) resp
           end;
       world := snd (up (the_call url t) w);
       calls := [the_call url t] |}.
Proof.
  intros H. rewrite (post_valid _ _ _ H).
  unfold run. simpl. destruct (up (the_call url t) w) as [[e | resp] w']; reflexivity.
Qed.

Lemma post_invalid (args : dict) (url : string) :
  url_arg args = inr url ->
  _is_valid_http_url (PyStr url) = false ->
  post float_of_str args = Ret (Returned invalid_url_response).
Proof.
  intros Hu Hv. unfold post. fold (url_arg args). rewrite Hu, Hv. reflexivity.
Qed.

(** The timeout of the call lies between 1 and 30 seconds, unless the
    timeout argument is a NaN. *)
Lemma constrained_timeout_in_range (v : pyval) (t : spec_float) :
  constrain_timeout float_of_str v = inr t ->
  Float.is_nan t = false ->
  SFleb Float.one t = true /\ SFleb t Float.thirty = true.
Proof.
  unfold constrain_timeout. intros H Hnan.
  destruct (float_ float_of_str v) as [[] | f]; try discriminate H;
    injection H as <-; now apply FloatFacts.clamp_in_range.
Qed.

(** What the declared schema delivers is admissible. *)
Lemma well_typed_admissible (args : dict) : well_typed args -> admissible args.
Proof.
  intros Hty. split.
  - unfold dict_get. destruct (args !! "url") as [v |] eqn:Hu; [| now exists ""].
    pose proof (Hty "url" _ v (or_introl eq_refl) Hu) as Hv. simpl in Hv.
    destruct v; try discriminate Hv. now eexists.
  - intros z Hz. unfold dict_get in Hz.
    destruct (args !! "timeout") as [v |] eqn:Ht; [| discriminate Hz].
    pose proof (Hty "timeout" _ v (or_intror (or_introl eq_refl)) Ht) as Hv.
    subst v. discriminate Hv.
Qed.

(** An admissible request either fails validation or is a valid request. *)
Lemma admissible_cases (args : dict) :
  admissible args ->
  exists url,
    url_arg args = inr url /\
    (_is_valid_http_url (PyStr url) = false \/ exists t, valid_request float_of_str args url t).
Proof.
  intros [[s Hs] Hz]. unfold url_arg. rewrite Hs. simpl.
  exists (Str.strip s). split; [reflexivity |].
  destruct (_is_valid_http_url (PyStr (Str.strip s))) eqn:Hv; [right | now left].
  unfold valid_request, url_arg. rewrite Hs. simpl.
  unfold constrain_timeout, timeout_arg.
  destruct (dict_get args "timeout" (PyFloat Float.ten)) as [| b | z | f | str] eqn:Ht;
    simpl; eauto.
  - specialize (Hz z eq_refl).
    destruct (Float.of_Z z) eqn:Hf; eauto. now destruct (Hz s0).
  - destruct (float_of_str str); eauto.
Qed.

(** C2: with a valid url and a true [as_text], when the upstream GET
    completes with a text-like Content-Type, the handler answers with
    status 200 whatever the upstream's own status code is, and that code
    is the [http_status] field of the body. *)
Theorem C2_success_is_200_for_any_upstream_status
    (args : dict) (url : string) (t : spec_float) (w w' : W) (resp : Response) :
  valid_request float_of_str args url t ->
  truthy (as_text_arg args) = true ->
  up (the_call url t) w = (Returns resp, w') ->
  text_like_spec (header_Content_Type resp) ->
  exists v,
    result (run up (post float_of_str args) w) = Returned v /\
    http_status v = 200%Z /\
    body_of v !! "status" = Some (PyStr "success") /\
    body_of v !! "http_status" = Some (PyInt (status_code resp)).
Proof.
  intros Hreq Has Hup Htl. apply text_like_iff in Htl.
  rewrite (run_post_valid _ _ _ _ Hreq), Hup. simpl.
  unfold respond. rewrite Has, Htl.
  eexists. repeat split.
Qed.

(** C3: with a valid url and a true [as_text], when the upstream GET
    completes, a Content-Type that is absent, empty or contains text,
    json, xml or html (case ignored) gives the 200 success body with the
    decoded body, the Content-Type, the url and the upstream status code;
    any other Content-Type gives the 422 body whose details quote the
    rejected value and which carries the url. *)
Theorem C3_content_type_classification
    (args : dict) (url : string) (t : spec_float) (w w' : W) (resp : Response) :
  valid_request float_of_str args url t ->
  truthy (as_text_arg args) = true ->
  up (the_call url t) w = (Returns resp, w') ->
  (text_like_spec (header_Content_Type resp) ->
   result (run up (post float_of_str args) w) =
     Returned
       (BodyStatus
          (mkdict [("status", PyStr "success");
                   ("message", PyStr "Content fetched");
                   ("content", PyStr (decoded_body resp));
                   ("content_type", PyStr (default "" (header_Content_Type resp)));
                   ("url", PyStr url);
                   ("http_status", PyInt (status_code resp))])
          200)) /\
  (~ text_like_spec (header_Content_Type resp) ->
   exists rejected,
     header_Content_Type resp = Some rejected /\
     result (run up (post float_of_str args) w) =
       Returned
         (BodyStatus
            (mkdict [("status", PyStr "error");
                     ("message", PyStr "Unsupported content type for text return");
                     ("details", PyStr ("Received content-type '" +:+ rejected
                                        +:+ "', which is not text-like."));
                     ("url", PyStr url)])
            422)).
Proof.
  intros Hreq Has Hup.
  rewrite (run_post_valid _ _ _ _ Hreq), Hup. simpl.
  unfold respond. rewrite Has. split; intros Htl.
  - apply text_like_iff in Htl. rewrite Htl.
    unfold content_type_of. now rewrite str_or_empty.
  - destruct (text_like (content_type_of resp)) eqn:E.
    + exfalso. apply Htl, text_like_iff, E.
    + destruct (header_Content_Type resp) as [s |] eqn:Hh.
      * exists s. split; [reflexivity |].
        unfold content_type_of. rewrite Hh, str_or_empty. reflexivity.
      * exfalso. apply Htl. now left.
Qed.

(** C4, as amended: with a valid url and a false [as_text], when the
    upstream GET completes the answer is the 422 "binary not supported"
    body, whatever the response is. *)
Theorem C4_binary_not_supported_after_fetch
    (args : dict) (url : string) (t : spec_float) (w w' : W) (resp : Response) :
  valid_request float_of_str args url t ->
  truthy (as_text_arg args) = false ->
  up (the_call url t) w = (Returns resp, w') ->
  result (run up (post float_of_str args) w) =
    Returned
      (BodyStatus
         (mkdict [("status", PyStr "error");
                  ("message", PyStr "Binary content return not supported yet");
                  ("details", PyStr "Set as_text=true to receive decoded textual content.");
                  ("url", PyStr url)])
         422).
Proof.
  intros Hreq Has Hup.
  rewrite (run_post_valid _ _ _ _ Hreq), Hup. simpl.
  unfold respond. now rewrite Has.
Qed.

(** C5: a timeout that [float] converts to a number [t] is resolved to
    [min(max(t, 1), 30)], so 0 gives 1, 1000 gives 30 and 5 gives 5; an
    absent timeout, and one that [float] rejects with ValueError or
    TypeError, is resolved to 10; the resolved timeout is the timeout of
    the request that is issued. *)
Theorem C5_timeout_resolution :
  (forall v t,
      float_ float_of_str v = inr t -> Float.is_nan t = false ->
      constrain_timeout float_of_str v = inr (clamp_spec t)) /\
  constrain_timeout float_of_str (PyInt 0) = inr Float.one /\
  constrain_timeout float_of_str (PyInt 1000) = inr Float.thirty /\
  constrain_timeout float_of_str (PyInt 5) = inr (Float.of_Z 5) /\
  (forall args : dict,
      args !! "timeout" = None ->
      constrain_timeout float_of_str (timeout_arg args) = inr Float.ten) /\
  (forall v,
      float_ float_of_str v = inl ValueError \/ float_ float_of_str v = inl TypeError ->
      constrain_timeout float_of_str v = inr Float.ten) /\
  (forall args url t w,
      valid_request float_of_str args url t ->
      map call_timeout (calls (run up (post float_of_str args) w)) = [t]).
Proof.
  split; [| split; [| split; [| split; [| split; [| split]]]]]; try reflexivity.
  - intros v t Hv Hnan. unfold constrain_timeout. rewrite Hv.
    now rewrite FloatFacts.clamp_is_clamp_spec.
  - intros args Habs. unfold timeout_arg, dict_get. now rewrite Habs.
  - intros v [Hv | Hv]; unfold constrain_timeout; now rewrite Hv.
  - intros args url t w Hreq. now rewrite (run_post_valid _ _ _ _ Hreq).
Qed.

(** C6: with a valid url, when [requests.get] raises, the handler returns
    (nothing propagates): 408 "Request timed out" for a Timeout, else 502
    "Upstream fetch failed" for any other RequestException, else 500
    "Internal server error"; the details are [str(e)] each time. *)
Theorem C6_fetch_failure_classification
    (args : dict) (url : string) (t : spec_float) (w w' : W) (e : exception) :
  valid_request float_of_str args url t ->
  up (the_call url t) w = (Raises e, w') ->
  exists status message,
    result (run up (post float_of_str args) w) =
      Returned
        (BodyStatus
           (mkdict [("status", PyStr "error");
                    ("message", PyStr message);
                    ("details", PyStr (exc_str e))])
           status) /\
    (status, message) =
      if isinstance_Timeout e then (408%Z, "Request timed out")
      else if isinstance_RequestException e then (502%Z, "Upstream fetch failed")
      else (500%Z, "Internal server error").
Proof.
  intros Hreq Hup.
  rewrite (run_post_valid _ _ _ _ Hreq), Hup. simpl.
  unfold on_exception.
  destruct (isinstance_Timeout e); [| destruct (isinstance_RequestException e)];
    do 2 eexists; split; reflexivity.
Qed.

(** C7: when the url fails the validation, the handler returns the 400
    body with the message "Invalid URL. Only http/https URLs are
    allowed." and issues no request: the log of calls is empty and the
    world is untouched. *)
Theorem C7_invalid_url_400_without_fetch (args : dict) (url : string) (w : W) :
  url_arg args = inr url ->
  _is_valid_http_url (PyStr url) = false ->
  post float_of_str args = Ret (Returned invalid_url_response) /\
  calls (run up (post float_of_str args) w) = [] /\
  world (run up (post float_of_str args) w) = w /\
  http_status invalid_url_response = 400%Z /\
  body_of invalid_url_response !! "status" = Some (PyStr "error") /\
  body_of invalid_url_response !! "message" =
    Some (PyStr "Invalid URL. Only http/https URLs are allowed.").
Proof.
  intros Hu Hv. rewrite (post_invalid _ _ Hu Hv). repeat split.
Qed.

(** The handler issues at most one request, and returns right after it. *)
Lemma run_post_cases (args : dict) :
  (exists o, forall w,
      run up (post float_of_str args) w = {| result := o; world := w; calls := [] |}) \/
  (exists c k, forall w,
      run up (post float_of_str args) w =
        {| result := k (fst (up c w)); world := snd (up c w); calls := [c] |}).
Proof.
  unfold post.
  destruct (strip_method _) as [e | url]; [left; eauto |].
  destruct (negb _); [left; eauto |].
  destruct (constrain_timeout _ _) as [e | t]; [left; eauto |].
  right. exists (the_call url t).
  exists (fun r => match r with
                   | Raises e => Returned (on_exception e)
                   | Returns resp =>
                       Returned (respond url (dict_get args "as_text" (PyBool true)) resp)
                   end).
  intros w. unfold run. simpl.
  fold (the_call url t).
  destruct (up (the_call url t) w) as [[e | resp] w']; reflexivity.
Qed.

(** C8: the same request issued twice, the second time in the world the
    first one left, against an upstream whose answers are the same in
    both worlds, has the same outcome both times, hence the same outcome
    category. *)
Theorem C8_same_request_same_outcome (args : dict) (w : W) :
  let first := run up (post float_of_str args) w in
  let second := run up (post float_of_str args) (world first) in
  (forall c, fst (up c w) = fst (up c (world first))) ->
  result first = result second /\
  outcome_category (result first) = outcome_category (result second).
Proof.
  intros first second Hsame.
  assert (result first = result second) as Heq; [| now rewrite Heq].
  subst first second.
  destruct (run_post_cases args) as [[o Ho] | (c & k & Hk)].
  - now rewrite !Ho.
  - rewrite !Hk. simpl. rewrite Hk in Hsame. simpl in Hsame.
    now rewrite (Hsame c).
Qed.

(** C9: the health endpoint returns the body [{"message": "Healthy"}] and
    nothing else, which the framework sends with status 200; it reads no
    input, cannot fail, issues no request and leaves the world as it is. *)
Theorem C9_health_check (w : W) :
  exists v,
    run up HealthCheck_get w = {| result := Returned v; world := w; calls := [] |} /\
    http_status v = 200%Z /\
    body_of v = {[ "message" := PyStr "Healthy" ]}.
Proof.
  eexists. repeat split.
Qed.

(** C10: on admissible arguments, against any upstream, the handler
    returns one response; its status is one of 200, 400, 408, 422, 502 and
    500; the body's "status" is "success" exactly when the status is 200
    and "error" otherwise; every error body has a "message" and a
    "details" string. *)
Theorem C10_response_shape (args : dict) (w : W) :
  admissible args ->
  exists v,
    result (run up (post float_of_str args) w) = Returned v /\
    In (http_status v) [200; 400; 408; 422; 502; 500]%Z /\
    body_of v !! "status" =
      Some (PyStr (if (http_status v =? 200)%Z then "success" else "error")) /\
    (http_status v <> 200%Z ->
     exists message details,
       body_of v !! "message" = Some (PyStr message) /\
       body_of v !! "details" = Some (PyStr details)).
Proof.
  intros Hadm.
  destruct (admissible_cases args Hadm) as (url & Hu & [Hv | [t Hreq]]).
  - rewrite (post_invalid _ _ Hu Hv). eexists. split; [reflexivity |].
    simpl. split; [tauto |]. split; [reflexivity |]. intros _. eauto.
  - rewrite (run_post_valid _ _ _ _ Hreq). eexists. split; [reflexivity |].
    destruct (fst (up (the_call url t) w)) as [e | resp].
    + unfold on_exception.
      destruct (isinstance_Timeout e); [| destruct (isinstance_RequestException e)];
        simpl; (split; [tauto |]); (split; [reflexivity |]); intros _; eauto.
    + unfold respond.
      destruct (truthy _); [destruct (text_like _) |];
        simpl; (split; [tauto |]); (split; [reflexivity |]); intros H;
        try congruence; eauto.
Qed.

End FetchFacts.

(** ** The scenarios of the specification *)

Example valid_example_com :
  _is_valid_http_url (PyStr "https://example.com") = true.
Proof. reflexivity. Qed.

Example valid_upper_case_scheme :
  _is_valid_http_url (PyStr "  HTTP://Example.com/a?b#c ") = true.
Proof. reflexivity. Qed.

Example invalid_not_a_url : _is_valid_http_url (PyStr "not-a-url") = false.
Proof. reflexivity. Qed.

Example invalid_other_scheme : _is_valid_http_url (PyStr "ftp://example.com") = false.
Proof. reflexivity. Qed.

Example invalid_scheme_relative : _is_valid_http_url (PyStr "//example.com") = false.
Proof. reflexivity. Qed.

Example invalid_space_further_on : _is_valid_http_url (PyStr "http://ab c") = false.
Proof. reflexivity. Qed.

(** Outside the declared schema the body of [post] can raise: on a url
    that is not a string, and on an integer timeout beyond the floats. *)
Example url_not_a_string :
  post Sample.no_float (mkdict [("url", PyNone)]) = Ret (Propagated AttributeError).
Proof. reflexivity. Qed.

Example timeout_beyond_floats :
  post Sample.no_float
       (mkdict [("url", PyStr "https://example.com"); ("timeout", PyInt (2 ^ 1024))]) =
    Ret (Propagated OverflowError).
Proof. reflexivity. Qed.

Example scenario_html :
  run (Sample.answering (Sample.html_response 200))
      (post Sample.no_float Sample.example_args) tt =
    {| result :=
         Returned
           (BodyStatus
              (mkdict [("status", PyStr "success");
                       ("message", PyStr "Content fetched");
                       ("content", PyStr "<html>ok</html>");
                       ("content_type", PyStr "text/html; charset=UTF-8");
                       ("url", PyStr "https://example.com");
                       ("http_status", PyInt 200)])
              200);
       world := tt;
       calls := [the_call "https://example.com" Float.ten] |}.
Proof. reflexivity. Qed.

Example scenario_png :
  outcome_category
    (result (run (Sample.answering Sample.png_response)
                 (post Sample.no_float Sample.example_args) tt)) =
    Some UnsupportedContentType.
Proof. reflexivity. Qed.

Example scenario_not_a_url :
  let r := run (Sample.answering (Sample.html_response 200))
               (post Sample.no_float Sample.not_a_url_args) tt in
  outcome_category (result r) = Some InvalidRequest /\ calls r = [].
Proof. split; reflexivity. Qed.

Example scenario_upstream_hangs :
  outcome_category
    (result (run (Sample.failing Sample.read_timeout)
                 (post Sample.no_float Sample.example_args) tt)) =
    Some Timeout.
Proof. reflexivity. Qed.

Example scenario_binary :
  outcome_category
    (result (run (Sample.answering (Sample.html_response 200))
                 (post Sample.no_float Sample.binary_args) tt)) =
    Some BinaryNotSupported.
Proof. reflexivity. Qed.

(** ** The theorems at sample requests *)

(** The statement of C2 at a sample request. *)
Lemma C2_witness :
  let args := Sample.example_args in
  let resp := Sample.html_response 404 in
  let up := Sample.answering resp in
  valid_request Sample.no_float args "https://example.com" Float.ten /\
  truthy (as_text_arg args) = true /\
  up (the_call "https://example.com" Float.ten) tt = (Returns resp, tt) /\
  text_like_spec (header_Content_Type resp) /\
  exists v,
    result (run up (post Sample.no_float args) tt) = Returned v /\
    http_status v = 200%Z /\
    body_of v !! "status" = Some (PyStr "success") /\
    body_of v !! "http_status" = Some (PyInt 404).
Proof.
  intros args resp up.
  assert (valid_request Sample.no_float args "https://example.com" Float.ten) as H1
    by (repeat split).
  assert (truthy (as_text_arg args) = true) as H2 by reflexivity.
  assert (up (the_call "https://example.com" Float.ten) tt = (Returns resp, tt)) as H3
    by reflexivity.
  assert (text_like_spec (header_Content_Type resp)) as H4
    by (apply text_like_iff; reflexivity).
  exact (conj H1 (conj H2 (conj H3 (conj H4
    (C2_success_is_200_for_any_upstream_status
       Sample.no_float up args _ _ tt tt resp H1 H2 H3 H4))))).
Defined.

(** The statement of C3 at a sample request. *)
Lemma C3_witness :
  let args := Sample.example_args in
  let resp := Sample.png_response in
  let up := Sample.answering resp in
  valid_request Sample.no_float args "https://example.com" Float.ten /\
  truthy (as_text_arg args) = true /\
  up (the_call "https://example.com" Float.ten) tt = (Returns resp, tt) /\
  ~ text_like_spec (header_Content_Type resp) /\
  exists rejected,
    header_Content_Type resp = Some rejected /\
    result (run up (post Sample.no_float args) tt) =
      Returned
        (BodyStatus
           (mkdict [("status", PyStr "error");
                    ("message", PyStr "Unsupported content type for text return");
                    ("details", PyStr ("Received content-type '" +:+ rejected
                                       +:+ "', which is not text-like."));
                    ("url", PyStr "https://example.com")])
           422).
Proof.
  intros args resp up.
  assert (valid_request Sample.no_float args "https://example.com" Float.ten) as H1
    by (repeat split).
  assert (truthy (as_text_arg args) = true) as H2 by reflexivity.
  assert (up (the_call "https://example.com" Float.ten) tt = (Returns resp, tt)) as H3
    by reflexivity.
  assert (~ text_like_spec (header_Content_Type resp)) as H4
    by (intros H; apply text_like_iff in H; discriminate H).
  exact (conj H1 (conj H2 (conj H3 (conj H4
    (proj2 (C3_content_type_classification
              Sample.no_float up args _ _ tt tt resp H1 H2 H3) H4))))).
Defined.

(** The statement of C4 at a sample request. *)
Lemma C4_witness :
  let args := Sample.binary_args in
  let resp := Sample.html_response 200 in
  let up := Sample.answering resp in
  valid_request Sample.no_float args "https://example.com" Float.ten /\
  truthy (as_text_arg args) = false /\
  up (the_call "https://example.com" Float.ten) tt = (Returns resp, tt) /\
  result (run up (post Sample.no_float args) tt) =
    Returned
      (BodyStatus
         (mkdict [("status", PyStr "error");
                  ("message", PyStr "Binary content return not supported yet");
                  ("details", PyStr "Set as_text=true to receive decoded textual content.");
                  ("url", PyStr "https://example.com")])
         422).
Proof.
  intros args resp up.
  assert (valid_request Sample.no_float args "https://example.com" Float.ten) as H1
    by (repeat split).
  assert (truthy (as_text_arg args) = false) as H2 by reflexivity.
  assert (up (the_call "https://example.com" Float.ten) tt = (Returns resp, tt)) as H3
    by reflexivity.
  exact (conj H1 (conj H2 (conj H3
    (C4_binary_not_supported_after_fetch
       Sample.no_float up args _ _ tt tt resp H1 H2 H3)))).
Defined.

(** C4 as stated fails: with a valid url and [as_text] false, an upstream
    that times out is answered with 408, not with 422. *)
Lemma C4_counterexample :
  ~ (forall up : Upstream unit,
        exists v,
          result (run up (post Sample.no_float Sample.binary_args) tt) = Returned v /\
          http_status v = 422%Z).
Proof.
  intros H. destruct (H (Sample.failing Sample.read_timeout)) as (v & Hv & Hs).
  vm_compute in Hv. injection Hv as <-. discriminate Hs.
Qed.

(** The statement of C5 at a sample request. *)
Lemma C5_witness :
  let args := mkdict [("url", PyStr "https://example.com"); ("timeout", PyInt 1000)] in
  let up := Sample.answering (Sample.html_response 200) in
  float_ Sample.no_float (PyInt 1000) = inr (Float.of_Z 1000) /\
  Float.is_nan (Float.of_Z 1000) = false /\
  constrain_timeout Sample.no_float (PyInt 1000) = inr (clamp_spec (Float.of_Z 1000)) /\
  clamp_spec (Float.of_Z 1000) = Float.thirty /\
  float_ Sample.no_float (PyStr "soon") = inl ValueError /\
  constrain_timeout Sample.no_float (PyStr "soon") = inr Float.ten /\
  valid_request Sample.no_float args "https://example.com" Float.thirty /\
  map call_timeout (calls (run up (post Sample.no_float args) tt)) = [Float.thirty].
Proof.
  intros args up.
  assert (float_ Sample.no_float (PyInt 1000) = inr (Float.of_Z 1000)) as H1
    by reflexivity.
  assert (Float.is_nan (Float.of_Z 1000) = false) as H2 by reflexivity.
  assert (float_ Sample.no_float (PyStr "soon") = inl ValueError) as H3 by reflexivity.
  assert (valid_request Sample.no_float args "https://example.com" Float.thirty) as H4
    by (repeat split).
  pose proof (C5_timeout_resolution Sample.no_float up)
    as (Hnum & _ & _ & _ & _ & Hbad & Hcall).
  exact (conj H1 (conj H2 (conj (Hnum _ _ H1 H2) (conj eq_refl
    (conj H3 (conj (Hbad _ (or_introl H3)) (conj H4 (Hcall _ _ _ tt H4)))))))).
Defined.

(** The statement of C6 at a sample request. *)
Lemma C6_witness :
  let args := Sample.example_args in
  let e := Sample.read_timeout in
  let up := Sample.failing e in
  valid_request Sample.no_float args "https://example.com" Float.ten /\
  up (the_call "https://example.com" Float.ten) tt = (Raises e, tt) /\
  exists status message,
    result (run up (post Sample.no_float args) tt) =
      Returned
        (BodyStatus
           (mkdict [("status", PyStr "error");
                    ("message", PyStr message);
                    ("details", PyStr "Read timed out.")])
           status) /\
    (status, message) = (408%Z, "Request timed out").
Proof.
  intros args e up.
  assert (valid_request Sample.no_float args "https://example.com" Float.ten) as H1
    by (repeat split).
  assert (up (the_call "https://example.com" Float.ten) tt = (Raises e, tt)) as H2
    by reflexivity.
  exact (conj H1 (conj H2
    (C6_fetch_failure_classification Sample.no_float up args _ _ tt tt e H1 H2))).
Defined.

(** The statement of C7 at a sample request. *)
Lemma C7_witness :
  let args := Sample.not_a_url_args in
  let up := Sample.answering (Sample.html_response 200) in
  url_arg args = inr "not-a-url" /\
  _is_valid_http_url (PyStr "not-a-url") = false /\
  post Sample.no_float args = Ret (Returned invalid_url_response) /\
  calls (run up (post Sample.no_float args) tt) = [] /\
  world (run up (post Sample.no_float args) tt) = tt /\
  http_status invalid_url_response = 400%Z /\
  body_of invalid_url_response !! "status" = Some (PyStr "error") /\
  body_of invalid_url_response !! "message" =
    Some (PyStr "Invalid URL. Only http/https URLs are allowed.").
Proof.
  intros args up.
  assert (url_arg args = inr "not-a-url") as H1 by reflexivity.
  assert (_is_valid_http_url (PyStr "not-a-url") = false) as H2 by reflexivity.
  exact (conj H1 (conj H2
    (C7_invalid_url_400_without_fetch Sample.no_float up args _ tt H1 H2))).
Defined.

(** The statement of C8 at a sample request. *)
Lemma C8_witness :
  let args := Sample.example_args in
  let up := Sample.answering (Sample.html_response 200) in
  let first := run up (post Sample.no_float args) tt in
  let second := run up (post Sample.no_float args) (world first) in
  (forall c, fst (up c tt) = fst (up c (world first))) /\
  result first = result second /\
  outcome_category (result first) = outcome_category (result second).
Proof.
  intros args up first second.
  assert (forall c, fst (up c tt) = fst (up c (world first))) as H1
    by (intros c; reflexivity).
  exact (conj H1 (C8_same_request_same_outcome Sample.no_float up args tt H1)).
Defined.

(** The statement of C10 at a sample request. *)
Lemma C10_witness :
  let args := Sample.example_args in
  let up := Sample.failing Sample.read_timeout in
  admissible args /\
  exists v,
    result (run up (post Sample.no_float args) tt) = Returned v /\
    In (http_status v) [200; 400; 408; 422; 502; 500]%Z /\
    body_of v !! "status" =
      Some (PyStr (if (http_status v =? 200)%Z then "success" else "error")) /\
    (http_status v <> 200%Z ->
     exists message details,
       body_of v !! "message" = Some (PyStr message) /\
       body_of v !! "details" = Some (PyStr details)).
Proof.
  intros args up.
  assert (admissible args) as H1.
  { split; [now exists "https://example.com" |]. intros z Hz. discriminate Hz. }
  exact (conj H1 (C10_response_shape Sample.no_float up args tt H1)).
Defined.

(** ** Further facts: the validation, [strip], the arguments *)

Module UrlMore.
Import UrlFacts.
Local Arguments Re.match_here : simpl never.
Local Arguments Ascii.eqb : simpl never.
Local Arguments Str.tolower : simpl never.
Local Arguments Str.isspace : simpl never.






End UrlMore.

Module StripFacts.
Import UrlFacts.
Local Arguments Str.isspace : simpl never.

Lemma lstrip_all_space (s : string) :
  Str.all Str.isspace s = true -> Str.lstrip s = "".
Proof.
  induction s as [| c s IH]; [reflexivity |]. simpl.
  intros H. apply andb_prop in H as [Hc Hs]. rewrite Hc. exact (IH Hs).
Qed.

Lemma rstrip_all_space (s : string) :
  Str.all Str.isspace s = true -> Str.rstrip s = "".
Proof.
  induction s as [| c s IH]; [reflexivity |].
  simpl Str.all. intros H. apply andb_prop in H as [Hc Hs].
  now rewrite rstrip_cons, (IH Hs), Hc.
Qed.

Lemma strip_all_space (s : string) :
  Str.all Str.isspace s = true -> Str.strip s = "".
Proof. intros H. unfold Str.strip. now rewrite (lstrip_all_space _ H). Qed.

Lemma lstrip_pad (l x : string) :
  Str.all Str.isspace l = true -> Str.lstrip (l +:+ x) = Str.lstrip x.
Proof.
  induction l as [| c l IH]; [reflexivity |]. simpl Str.all.
  intros H. apply andb_prop in H as [Hc Hl].
  StrFacts.norm_app. simpl. rewrite Hc. exact (IH Hl).
Qed.

Lemma rstrip_pad (x r : string) :
  Str.all Str.isspace r = true -> Str.rstrip (x +:+ r) = Str.rstrip x.
Proof.
  intros Hr. induction x as [| c x IH]; StrFacts.norm_app.
  - now apply rstrip_all_space.
  - now rewrite !rstrip_cons, IH.
Qed.

(** Stripping on the left of [x +:+ r]: all of it when [x] is blank,
    otherwise only into [x]. *)
Lemma lstrip_app (x r : string) :
  Str.lstrip (x +:+ r) =
  if Str.all Str.isspace x then Str.lstrip r else Str.lstrip x +:+ r.
Proof.
  induction x as [| c x IH]; [reflexivity |].
  StrFacts.norm_app. simpl. destruct (Str.isspace c); [exact IH | reflexivity].
Qed.

(** Whitespace around a string does not change what [strip] returns. *)
Lemma strip_pad (l x r : string) :
  Str.all Str.isspace l = true -> Str.all Str.isspace r = true ->
  Str.strip (l +:+ x +:+ r) = Str.strip x.
Proof.
  intros Hl Hr. unfold Str.strip. rewrite (lstrip_pad _ _ Hl), lstrip_app.
  destruct (Str.all Str.isspace x) eqn:Hx.
  - now rewrite (lstrip_all_space _ Hr), (lstrip_all_space _ Hx).
  - now apply rstrip_pad.
Qed.

End StripFacts.

Lemma dict_get_insert (args : dict) (k : string) (v d : pyval) :
  dict_get (<[k := v]> args) k d = v.
Proof. unfold dict_get. now rewrite lookup_insert_eq. Qed.

Lemma dict_get_insert_ne (args : dict) (k k' : string) (v d : pyval) :
  k <> k' -> dict_get (<[k := v]> args) k' d = dict_get args k' d.
Proof. intros H. unfold dict_get. now rewrite lookup_insert_ne. Qed.

Lemma dict_get_absent (args : dict) (k : string) (d : pyval) :
  args !! k = None -> dict_get args k d = d.
Proof. intros H. unfold dict_get. now rewrite H. Qed.

(** ** Further facts about [post] *)

Section MoreFacts.

Variable float_of_str : string -> option spec_float.

(** [post] reads its arguments through three lookups only, and the url
    only through its stripped form. *)
Lemma post_ext (args args' : dict) :
  url_arg args = url_arg args' ->
  timeout_arg args = timeout_arg args' ->
  as_text_arg args = as_text_arg args' ->
  post float_of_str args = post float_of_str args'.
Proof.
  unfold url_arg, timeout_arg, as_text_arg, post. intros -> -> ->. reflexivity.
Qed.

Lemma strip_method_error (v : pyval) (e : py_error) :
  strip_method v = inl e -> e = AttributeError /\ forall s, v <> PyStr s.
Proof.
  destruct v; simpl; intros H; try discriminate H; injection H as <-;
    split; congruence.
Qed.

Lemma constrain_timeout_error (v : pyval) (e : py_error) :
  constrain_timeout float_of_str v = inl e ->
  e = OverflowError /\
  exists z sign, v = PyInt z /\ Float.of_Z z = S754_infinity sign.
Proof.
  unfold constrain_timeout. destruct v as [| b | z | f | s]; simpl; try discriminate.
  - destruct (Float.of_Z z) eqn:Hz; try discriminate.
    intros H. injection H as <-. eauto.
  - destruct (float_of_str s); discriminate.
Qed.

Context {W : Type}.
Variable up : Upstream W.

(** The four ways a call of [post] can go. *)
Lemma run_post_inv (args : dict) (w : W) :
  let r := run up (post float_of_str args) w in
  (url_arg args = inl AttributeError /\
   r = {| result := Propagated AttributeError; world := w; calls := [] |}) \/
  (exists url,
      url_arg args = inr url /\ _is_valid_http_url (PyStr url) = false /\
      r = {| result := Returned invalid_url_response; world := w; calls := [] |}) \/
  (exists url z sign,
      url_arg args = inr url /\ _is_valid_http_url (PyStr url) = true /\
      timeout_arg args = PyInt z /\ Float.of_Z z = S754_infinity sign /\
      r = {| result := Propagated OverflowError; world := w; calls := [] |}) \/
  (exists url t,
      valid_request float_of_str args url t /\
      r = {| result :=
               Returned
                 match fst (up (the_call url t) w) with
                 | Raises e => on_exception e
                 | Returns resp => respond url (as_text_arg args) resp
                 end;
             world := snd (up (the_call url t) w);
             calls := [the_call url t] |}).
Proof.
  intros r. subst r.
  destruct (url_arg args) as [e | url] eqn:Hu.
  { left. destruct (strip_method_error _ _ Hu) as [-> _]. split; [reflexivity |].
    unfold post. fold (url_arg args). now rewrite Hu. }
  right. destruct (_is_valid_http_url (PyStr url)) eqn:Hv.
  2: { left. exists url. split; [reflexivity |]. split; [exact Hv |].
       now rewrite (post_invalid _ _ _ Hu Hv). }
  right. destruct (constrain_timeout float_of_str (timeout_arg args)) as [e | t] eqn:Ht.
  - left. destruct (constrain_timeout_error _ _ Ht) as (-> & z & sign & Hz & Hinf).
    exists url, z, sign. do 4 (split; [assumption || reflexivity |]).
    unfold post. fold (url_arg args) (timeout_arg args). now rewrite Hu, Hv, Ht.
  - right. exists url, t.
    assert (valid_request float_of_str args url t) as Hreq by (repeat split; assumption).
    split; [exact Hreq |]. apply (run_post_valid _ _ _ _ _ _ Hreq).
Qed.

(** Clamping a clamped value gives it back. *)
Lemma clamp_idempotent (f : spec_float) :
  Float.min (Float.max (Float.min (Float.max f Float.one) Float.thirty) Float.one)
            Float.thirty =
  Float.min (Float.max f Float.one) Float.thirty.
Proof.
  unfold Float.min, Float.max, Float.gt, Float.lt.
  destruct (SFltb f Float.one) eqn:H1; [reflexivity |].
  destruct (SFltb Float.thirty f) eqn:H2; [reflexivity |].
  now rewrite H1, H2.
Qed.

Lemma on_exception_status (e : exception) :
  http_status (on_exception e) = 408%Z \/
  http_status (on_exception e) = 502%Z \/
  http_status (on_exception e) = 500%Z.
Proof.
  unfold on_exception.
  destruct (isinstance_Timeout e); [| destruct (isinstance_RequestException e)];
    simpl; tauto.
Qed.

Lemma respond_status (url : string) (as_text : pyval) (resp : Response) :
  http_status (respond url as_text resp) = 200%Z \/
  http_status (respond url as_text resp) = 422%Z.
Proof.
  unfold respond. destruct (truthy as_text); [destruct (text_like _) |]; simpl; tauto.
Qed.


(** X2: whitespace before and after the url changes nothing: the
    validation gives the same answer and [post] is the same program, so
    the same request is issued and the same response returned. *)
Theorem X2_whitespace_around_url_ignored (args : dict) (l raw r : string) :
  blank l = true -> blank r = true ->
  _is_valid_http_url (PyStr (l +:+ raw +:+ r)) = _is_valid_http_url (PyStr raw) /\
  post float_of_str (<["url" := PyStr (l +:+ raw +:+ r)]> args) =
    post float_of_str (<["url" := PyStr raw]> args).
Proof.
  intros Hl Hr. pose proof (StripFacts.strip_pad l raw r Hl Hr) as Hs. split.
  - simpl. now rewrite Hs.
  - apply post_ext; unfold url_arg, timeout_arg, as_text_arg.
    + rewrite !dict_get_insert. simpl. now rewrite Hs.
    + now rewrite !dict_get_insert_ne by discriminate.
    + now rewrite !dict_get_insert_ne by discriminate.
Qed.

(** X3: a request without a url, or whose url is empty or whitespace
    only, is answered with the 400 body; no request is issued and the
    world is left as it is. *)
Theorem X3_missing_or_blank_url_is_400 (args : dict) (w : W) :
  args !! "url" = None \/
  (exists s, args !! "url" = Some (PyStr s) /\ blank s = true) ->
  run up (post float_of_str args) w =
    {| result := Returned invalid_url_response; world := w; calls := [] |}.
Proof.
  intros H.
  assert (url_arg args = inr "") as Hu.
  { unfold url_arg, dict_get. destruct H as [-> | (s & -> & Hs)]; [reflexivity |].
    simpl. now rewrite (StripFacts.strip_all_space _ Hs). }
  now rewrite (post_invalid _ _ _ Hu eq_refl).
Qed.

(** X4: whatever the arguments and the upstream, [post] issues at most
    one request (no retry, also after a failure), and a request that is
    issued goes to the stripped url, which passed the validation, with
    the constrained timeout and the one User-Agent header. *)
Theorem X4_at_most_one_request (args : dict) (w : W) :
  length (calls (run up (post float_of_str args) w)) <= 1 /\
  forall c,
    In c (calls (run up (post float_of_str args) w)) ->
    url_arg args = inr (call_url c) /\
    _is_valid_http_url (PyStr (call_url c)) = true /\
    constrain_timeout float_of_str (timeout_arg args) = inr (call_timeout c) /\
    call_headers c = [("User-Agent", "Visionary-SearchService/1.0")].
Proof.
  destruct (run_post_inv args w)
    as [[_ Hr] | [(url & _ & _ & Hr) | [(url & z & sign & _ & _ & _ & _ & Hr)
       | (url & t & (Hu & Hv & Ht) & Hr)]]];
    rewrite Hr; simpl; (split; [lia |]); intros c Hc; try contradiction.
  destruct Hc as [<- | []]. simpl. repeat split; assumption.
Qed.

(** X5: the timeout of a request that is issued lies between 1 and 30
    seconds, both included, unless it is a NaN. *)
Theorem X5_request_timeout_within_bounds (args : dict) (w : W) (c : Call) :
  In c (calls (run up (post float_of_str args) w)) ->
  Float.is_nan (call_timeout c) = false ->
  SFleb Float.one (call_timeout c) = true /\
  SFleb (call_timeout c) Float.thirty = true.
Proof.
  intros Hc Hnan.
  destruct (run_post_inv args w)
    as [[_ Hr] | [(url & _ & _ & Hr) | [(url & z & sign & _ & _ & _ & _ & Hr)
       | (url & t & (Hu & Hv & Ht) & Hr)]]];
    rewrite Hr in Hc; simpl in Hc; try contradiction.
  destruct Hc as [<- | []]. simpl in *.
  exact (constrained_timeout_in_range _ _ _ Ht Hnan).
Qed.

(** X6: a timeout that [float] converts to a NaN goes through the clamp
    unchanged: on a valid url the request is issued with a NaN timeout. *)
Theorem X6_nan_timeout_not_clamped (args : dict) (url : string) (w : W) :
  url_arg args = inr url ->
  _is_valid_http_url (PyStr url) = true ->
  float_ float_of_str (timeout_arg args) = inr S754_nan ->
  calls (run up (post float_of_str args) w) = [the_call url S754_nan].
Proof.
  intros Hu Hv Hf.
  assert (valid_request float_of_str args url S754_nan) as Hreq.
  { repeat split; try assumption. unfold constrain_timeout. now rewrite Hf. }
  now rewrite (run_post_valid _ _ _ _ _ _ Hreq).
Qed.

(** X7: the only exceptions that leave [post] are AttributeError, when
    the url is not a string, and OverflowError, when the url is valid and
    the timeout is an integer too large for a float; in both cases no
    request has been issued. *)
Theorem X7_exceptions_that_propagate (args : dict) (w : W) (e : py_error) :
  result (run up (post float_of_str args) w) = Propagated e ->
  calls (run up (post float_of_str args) w) = [] /\
  world (run up (post float_of_str args) w) = w /\
  ((e = AttributeError /\ forall s, dict_get args "url" (PyStr "") <> PyStr s) \/
   (e = OverflowError /\
    exists url z sign,
      url_arg args = inr url /\ _is_valid_http_url (PyStr url) = true /\
      timeout_arg args = PyInt z /\ Float.of_Z z = S754_infinity sign)).
Proof.
  destruct (run_post_inv args w)
    as [[Hu Hr] | [(url & _ & _ & Hr) | [(url & z & sign & Hu & Hv & Hz & Hinf & Hr)
       | (url & t & _ & Hr)]]];
    rewrite Hr; simpl; intros H; try discriminate H; injection H as <-;
    (split; [reflexivity |]); (split; [reflexivity |]).
  - left. split; [reflexivity |]. exact (proj2 (strip_method_error _ _ Hu)).
  - right. split; [reflexivity |]. exists url, z, sign. auto.
Qed.

(** X8: the defaults the schema declares are the defaults the handler
    falls back on: filling in the declared [missing] value of an absent
    field does not change [post]. *)
Theorem X8_schema_defaults_are_handler_defaults
    (args : dict) (k : string) (f : field) (d : pyval) :
  In (k, f) fetch_args ->
  missing f = Some d ->
  args !! k = None ->
  post float_of_str (<[k := d]> args) = post float_of_str args.
Proof.
  intros Hin Hm Habs. simpl in Hin.
  destruct Hin as [Hin | [Hin | [Hin | []]]]; injection Hin as <- <-;
    simpl in Hm; try discriminate Hm; injection Hm as <-;
    apply post_ext; unfold url_arg, timeout_arg, as_text_arg;
    rewrite ?dict_get_insert, ?dict_get_insert_ne by discriminate;
    rewrite ?(dict_get_absent _ _ _ Habs); reflexivity.
Qed.

(** X9: [post] reads the three declared fields only: setting any other
    key of the arguments does not change it. *)
Theorem X9_other_keys_ignored (args : dict) (k : string) (v : pyval) :
  ~ In k field_names ->
  post float_of_str (<[k := v]> args) = post float_of_str args.
Proof.
  intros Hk. unfold field_names in Hk. simpl in Hk.
  apply post_ext; unfold url_arg, timeout_arg, as_text_arg;
    rewrite dict_get_insert_ne; auto; intros ->; tauto.
Qed.

(** X10: the body of a response has exactly the keys that go with its
    status (six for 200, four for 422, three for 400, 408, 502 and 500),
    and a "url" in the body is the stripped url of the arguments. *)
Theorem X10_body_keys (args : dict) (w : W) (v : view_return) :
  result (run up (post float_of_str args) w) = Returned v ->
  dom (body_of v) = body_keys (http_status v) /\
  forall x, body_of v !! "url" = Some x ->
            exists url, url_arg args = inr url /\ x = PyStr url.
Proof.
  destruct (run_post_inv args w)
    as [[_ Hr] | [(url & _ & _ & Hr) | [(url & z & sign & _ & _ & _ & _ & Hr)
       | (url & t & (Hu & Hv & Ht) & Hr)]]];
    rewrite Hr; simpl; intros H; try discriminate H; injection H as <-.
  - split; [reflexivity |]. intros x Hx. discriminate Hx.
  - destruct (fst (up (the_call url t) w)) as [e | resp].
    + unfold on_exception.
      destruct (isinstance_Timeout e); [| destruct (isinstance_RequestException e)];
        (split; [reflexivity |]); intros x Hx; discriminate Hx.
    + unfold respond.
      destruct (truthy _); [destruct (text_like _) |];
        (split; [reflexivity |]); intros x Hx; injection Hx as <-; eauto.
Qed.

(** X11: the status of a response tells what happened: 400 exactly when
    no request was issued; 200 or 422 exactly when the one request was
    answered by the upstream; 408, 502 or 500 exactly when it raised. *)
Theorem X11_status_tells_what_happened (args : dict) (w : W) (v : view_return) :
  result (run up (post float_of_str args) w) = Returned v ->
  (http_status v = 400%Z <-> calls (run up (post float_of_str args) w) = []) /\
  (http_status v = 200%Z \/ http_status v = 422%Z <->
   exists c resp,
     calls (run up (post float_of_str args) w) = [c] /\ fst (up c w) = Returns resp) /\
  (http_status v = 408%Z \/ http_status v = 502%Z \/ http_status v = 500%Z <->
   exists c e,
     calls (run up (post float_of_str args) w) = [c] /\ fst (up c w) = Raises e).
Proof.
  destruct (run_post_inv args w)
    as [[_ Hr] | [(url & _ & _ & Hr) | [(url & z & sign & _ & _ & _ & _ & Hr)
       | (url & t & _ & Hr)]]];
    rewrite Hr; simpl; intros H; try discriminate H; injection H as <-.
  - simpl. split; [tauto |].
    split; (split; [intros H; lia | intros (c & x & Hc & _); discriminate Hc]).
  - destruct (fst (up (the_call url t) w)) as [e | resp] eqn:Hup.
    + pose proof (on_exception_status e) as Hs.
      split; [split; [intros H; lia | discriminate] |].
      split.
      * split; [intros H; lia |].
        intros (c & resp & Hc & Hresp). injection Hc as <-. congruence.
      * split; [intros _; eauto | intros _; exact Hs].
    + pose proof (respond_status url (as_text_arg args) resp) as Hs.
      split; [split; [intros H; lia | discriminate] |].
      split.
      * split; [intros _; eauto | intros _; exact Hs].
      * split; [intros H; lia |].
        intros (c & e & Hc & He). injection Hc as <-. congruence.
Qed.


(** X14: a resolved timeout is a fixed point of the resolution: giving
    the handler the timeout it resolved resolves to the same timeout
    (also when that is a NaN). *)
Theorem X14_resolved_timeout_is_a_fixed_point (v : pyval) (t : spec_float) :
  constrain_timeout float_of_str v = inr t ->
  constrain_timeout float_of_str (PyFloat t) = inr t.
Proof.
  unfold constrain_timeout. intros H. cbn [float_]. f_equal.
  destruct (float_ float_of_str v) as [[] | f]; try discriminate H;
    injection H as <-; apply clamp_idempotent.
Qed.

End MoreFacts.

Lemma contains_app (w s x y : string) :
  Str.contains w s = true -> Str.contains w (x +:+ s +:+ y) = true.
Proof.
  rewrite !StrFacts.contains_iff. intros (pre & post & ->).
  exists (x +:+ pre), (post +:+ y). now rewrite !StrFacts.app_assoc.
Qed.

(** X12: the test on the content type is a substring match: a content
    type that holds a text-like one (not empty) is text-like, whatever
    stands before and after it. *)
Theorem X12_text_like_is_a_substring_match (pre ct post : string) :
  ct <> "" ->
  text_like ct = true ->
  text_like (pre +:+ ct +:+ post) = true.
Proof.
  intros Hne. unfold text_like.
  destruct ct as [| c ct]; [contradiction |]. cbn [Str.nonempty negb orb].
  rewrite !StrFacts.lower_app, !orb_true_iff.
  intros [[[H | H] | H] | H]; right;
    [left; left; left | left; left; right | left; right | right];
    now apply contains_app.
Qed.

(** ** The further properties at sample requests *)


(** X2 at a url padded with a tab, spaces and a newline. *)
Lemma X2_witness :
  let l := String (ascii_of_N 9) " " in
  let r := " " +:+ String (ascii_of_N 10) "" in
  blank l = true /\ blank r = true /\
  _is_valid_http_url (PyStr (l +:+ "https://example.com" +:+ r)) =
    _is_valid_http_url (PyStr "https://example.com") /\
  post Sample.no_float (<["url" := PyStr (l +:+ "https://example.com" +:+ r)]> ∅) =
    post Sample.no_float (<["url" := PyStr "https://example.com"]> ∅).
Proof.
  intros l r.
  assert (blank l = true) as H1 by reflexivity.
  assert (blank r = true) as H2 by reflexivity.
  exact (conj H1 (conj H2
    (X2_whitespace_around_url_ignored Sample.no_float ∅ l "https://example.com" r H1 H2))).
Defined.

(** X3 at the empty arguments. *)
Lemma X3_witness :
  let up := Sample.answering (Sample.html_response 200) in
  (∅ : dict) !! "url" = None /\
  run up (post Sample.no_float ∅) tt =
    {| result := Returned invalid_url_response; world := tt; calls := [] |}.
Proof.
  intros up.
  assert ((∅ : dict) !! "url" = None) as H by reflexivity.
  exact (conj H (X3_missing_or_blank_url_is_400 Sample.no_float up ∅ tt (or_introl H))).
Defined.

(** X4 at a sample request. *)
Lemma X4_witness :
  let args := Sample.example_args in
  let up := Sample.failing Sample.read_timeout in
  let c := the_call "https://example.com" Float.ten in
  In c (calls (run up (post Sample.no_float args) tt)) /\
  url_arg args = inr (call_url c) /\
  _is_valid_http_url (PyStr (call_url c)) = true /\
  constrain_timeout Sample.no_float (timeout_arg args) = inr (call_timeout c) /\
  call_headers c = [("User-Agent", "Visionary-SearchService/1.0")].
Proof.
  intros args up c.
  assert (In c (calls (run up (post Sample.no_float args) tt))) as H
    by (left; reflexivity).
  exact (conj H (proj2 (X4_at_most_one_request Sample.no_float up args tt) c H)).
Defined.

(** X5 at a request with a timeout of 1000 seconds. *)
Lemma X5_witness :
  let args := mkdict [("url", PyStr "https://example.com"); ("timeout", PyInt 1000)] in
  let up := Sample.answering (Sample.html_response 200) in
  let c := the_call "https://example.com" Float.thirty in
  In c (calls (run up (post Sample.no_float args) tt)) /\
  Float.is_nan (call_timeout c) = false /\
  SFleb Float.one (call_timeout c) = true /\
  SFleb (call_timeout c) Float.thirty = true.
Proof.
  intros args up c.
  assert (In c (calls (run up (post Sample.no_float args) tt))) as H1
    by (left; reflexivity).
  assert (Float.is_nan (call_timeout c) = false) as H2 by reflexivity.
  exact (conj H1 (conj H2
    (X5_request_timeout_within_bounds Sample.no_float up args tt c H1 H2))).
Defined.

(** X6 at a request whose timeout is a NaN. *)
Lemma X6_witness :
  let args := Sample.nan_timeout_args in
  let up := Sample.answering (Sample.html_response 200) in
  url_arg args = inr "https://example.com" /\
  _is_valid_http_url (PyStr "https://example.com") = true /\
  float_ Sample.no_float (timeout_arg args) = inr S754_nan /\
  calls (run up (post Sample.no_float args) tt) =
    [the_call "https://example.com" S754_nan].
Proof.
  intros args up.
  assert (url_arg args = inr "https://example.com") as H1 by reflexivity.
  assert (_is_valid_http_url (PyStr "https://example.com") = true) as H2 by reflexivity.
  assert (float_ Sample.no_float (timeout_arg args) = inr S754_nan) as H3 by reflexivity.
  exact (conj H1 (conj H2 (conj H3
    (X6_nan_timeout_not_clamped Sample.no_float up args _ tt H1 H2 H3)))).
Defined.

(** X7 at a request whose url is [None]. *)
Lemma X7_witness :
  let args := mkdict [("url", PyNone)] in
  let up := Sample.answering (Sample.html_response 200) in
  result (run up (post Sample.no_float args) tt) = Propagated AttributeError /\
  calls (run up (post Sample.no_float args) tt) = [] /\
  world (run up (post Sample.no_float args) tt) = tt /\
  ((AttributeError = AttributeError /\
    forall s, dict_get args "url" (PyStr "") <> PyStr s) \/
   (AttributeError = OverflowError /\
    exists url z sign,
      url_arg args = inr url /\ _is_valid_http_url (PyStr url) = true /\
      timeout_arg args = PyInt z /\ Float.of_Z z = S754_infinity sign)).
Proof.
  intros args up.
  assert (result (run up (post Sample.no_float args) tt) = Propagated AttributeError)
    as H by reflexivity.
  exact (conj H (X7_exceptions_that_propagate Sample.no_float up args tt _ H)).
Defined.

(** X8 at a request without a timeout. *)
Lemma X8_witness :
  let args := Sample.example_args in
  let f := {| field_type_of := Float_; required := false;
              missing := Some (PyFloat Float.ten) |} in
  In ("timeout", f) fetch_args /\
  missing f = Some (PyFloat Float.ten) /\
  args !! "timeout" = None /\
  post Sample.no_float (<["timeout" := PyFloat Float.ten]> args) =
    post Sample.no_float args.
Proof.
  intros args f.
  assert (In ("timeout", f) fetch_args) as H1 by (right; left; reflexivity).
  assert (missing f = Some (PyFloat Float.ten)) as H2 by reflexivity.
  assert (args !! "timeout" = None) as H3 by reflexivity.
  exact (conj H1 (conj H2 (conj H3
    (X8_schema_defaults_are_handler_defaults Sample.no_float args _ f _ H1 H2 H3)))).
Defined.

(** X9 at a key that the schema does not declare. *)
Lemma X9_witness :
  let args := Sample.example_args in
  ~ In "verbose" field_names /\
  post Sample.no_float (<["verbose" := PyBool true]> args) = post Sample.no_float args.
Proof.
  intros args.
  assert (~ In "verbose" field_names) as H.
  { intros [H | [H | [H | []]]]; discriminate H. }
  exact (conj H (X9_other_keys_ignored Sample.no_float args "verbose" (PyBool true) H)).
Defined.

(** X10 at a request answered with an image. *)
Lemma X10_witness :
  let args := Sample.example_args in
  let up := Sample.answering Sample.png_response in
  let v := respond "https://example.com" (PyBool true) Sample.png_response in
  result (run up (post Sample.no_float args) tt) = Returned v /\
  dom (body_of v) = body_keys (http_status v) /\
  forall x, body_of v !! "url" = Some x ->
            exists url, url_arg args = inr url /\ x = PyStr url.
Proof.
  intros args up v.
  assert (result (run up (post Sample.no_float args) tt) = Returned v) as H
    by reflexivity.
  exact (conj H (X10_body_keys Sample.no_float up args tt v H)).
Defined.

(** X11 at a request whose upstream times out. *)
Lemma X11_witness :
  let args := Sample.example_args in
  let up := Sample.failing Sample.read_timeout in
  let v := on_exception Sample.read_timeout in
  let r := run up (post Sample.no_float args) tt in
  result r = Returned v /\
  (http_status v = 400%Z <-> calls r = []) /\
  (http_status v = 200%Z \/ http_status v = 422%Z <->
   exists c resp, calls r = [c] /\ fst (up c tt) = Returns resp) /\
  (http_status v = 408%Z \/ http_status v = 502%Z \/ http_status v = 500%Z <->
   exists c e, calls r = [c] /\ fst (up c tt) = Raises e).
Proof.
  intros args up v r.
  assert (result r = Returned v) as H by reflexivity.
  exact (conj H (X11_status_tells_what_happened Sample.no_float up args tt v H)).
Defined.

(** X12 at the content type of an SVG image. *)
Lemma X12_witness :
  "xml" <> "" /\
  text_like "xml" = true /\
  text_like ("image/svg+" +:+ "xml" +:+ "; charset=utf-8") = true.
Proof.
  assert ("xml" <> "") as H1 by discriminate.
  assert (text_like "xml" = true) as H2 by reflexivity.
  exact (conj H1 (conj H2
    (X12_text_like_is_a_substring_match "image/svg+" "xml" "; charset=utf-8" H1 H2))).
Defined.


(** X14 at a timeout of 1000 seconds. *)
Lemma X14_witness :
  constrain_timeout Sample.no_float (PyInt 1000) = inr Float.thirty /\
  constrain_timeout Sample.no_float (PyFloat Float.thirty) = inr Float.thirty.
Proof.
  assert (constrain_timeout Sample.no_float (PyInt 1000) = inr Float.thirty) as H
    by reflexivity.
  exact (conj H (X14_resolved_timeout_is_a_fixed_point Sample.no_float _ _ H)).
Defined.
